(** * analyze_remaster_patterns.py: the rule catalog merge

    A shallow embedding of [analyze_remaster_patterns.py] and the
    properties of its merge of candidate rewrite rules into the rule
    catalog.

    The script loads a JSON document, scans its rules for the patterns
    that are already there, appends the candidate rules that are not,
    bumps the minor version, rewrites the description and saves the
    document.  The catalog is whatever [json.load] hands back, so the
    embedding works on dynamically typed values and every operation that
    Python can refuse returns the exception it raises.

    Modelling choices:
    - a string is a [string] of Rocq, one [ascii] per code point below 256;
    - a JSON number is an integer ([Z], unbounded); floating point numbers
      are not part of the value type, and the interpreter's optional cap on
      the number of digits of an int/str conversion is not modelled;
    - a dict is an association list in insertion order; the dicts built by
      [json.load] and by dict displays have one entry per key;
    - a value loaded from JSON is a tree: no object is reachable twice and
      nothing but the catalog's dict and its rules list is mutated, so
      values are passed by copy. *)

From Stdlib Require Import String Ascii List ZArith Bool Lia.
From Stdlib Require Import Decimal DecimalString DecimalZ DecimalPos.
From Stdlib Require Import Permutation.
Import ListNotations.

Local Open Scope string_scope.
Local Open Scope list_scope.
Local Open Scope Z_scope.

(** ** Values *)

#[warnings="-register-all"]
Inductive pyval : Type :=
| PNone
| PBool (b : bool)
| PInt (n : Z)
| PStr (s : string)
| PList (items : list pyval)
| PDict (entries : list (string * pyval)).

(** The exceptions the script can raise and does not catch. *)
Inductive exn : Type :=
| KeyError
| TypeError
| AttributeError
| IndexError
| ValueError.

Inductive result (A : Type) : Type :=
| Ok (a : A)
| Raise (e : exn).

Arguments Ok {A} a.
Arguments Raise {A} e.

Definition rbind {A B : Type} (r : result A) (k : A -> result B) : result B :=
  match r with
  | Ok a => k a
  | Raise e => Raise e
  end.

Notation "x <~ r ;; k" := (rbind r (fun x => k))
  (at level 61, r at next level, right associativity).

(** ** Dict entries *)

Fixpoint dict_get (d : list (string * pyval)) (key : string) : option pyval :=
  match d with
  | [] => None
  | (k, v) :: rest => if String.eqb k key then Some v else dict_get rest key
  end.

(** [d[key] = v]: an existing key keeps its place, a new key goes last. *)
Fixpoint dict_set (d : list (string * pyval)) (key : string) (v : pyval)
  : list (string * pyval) :=
  match d with
  | [] => [(key, v)]
  | (k, x) :: rest =>
      if String.eqb k key then (k, v) :: rest else (k, x) :: dict_set rest key v
  end.

Definition dict_has (d : list (string * pyval)) (key : string) : bool :=
  match dict_get d key with Some _ => true | None => false end.

(** ** Strings *)

Fixpoint starts_with (needle hay : string) : bool :=
  match needle, hay with
  | EmptyString, _ => true
  | String a n', String b h' => Ascii.eqb a b && starts_with n' h'
  | String _ _, EmptyString => false
  end.

(** [needle in hay] on two strings. *)
Fixpoint str_contains (needle hay : string) : bool :=
  starts_with needle hay ||
  match hay with
  | EmptyString => false
  | String _ h' => str_contains needle h'
  end.

(** [s.split('.')]: never empty. *)
Fixpoint split_dot (s : string) : list string :=
  match s with
  | EmptyString => [EmptyString]
  | String c r =>
      if Ascii.eqb c "."%char then EmptyString :: split_dot r
      else match split_dot r with
           | h :: t => String c h :: t
           | [] => [String c EmptyString]
           end
  end.

(** ['.'.join(parts)]. *)
Definition join_dot (parts : list string) : string := String.concat "." parts.

(** *** int(s) and str(n) *)

(** The white space [int] strips at both ends: tab, line feed, vertical tab,
    form feed, carriage return, space, and of the code points above 127,
    next line (133) and no-break space (160). *)
Definition is_space (c : ascii) : bool :=
  let n := nat_of_ascii c in
  ((9 <=? n) && (n <=? 13))%nat || (n =? 32)%nat || (n =? 133)%nat || (n =? 160)%nat.

Definition is_digit (c : ascii) : bool :=
  let n := nat_of_ascii c in ((48 <=? n) && (n <=? 57))%nat.

Fixpoint lstrip (s : string) : string :=
  match s with
  | EmptyString => EmptyString
  | String c r => if is_space c then lstrip r else s
  end.

Fixpoint rstrip (s : string) : string :=
  match s with
  | EmptyString => EmptyString
  | String c r =>
      match rstrip r with
      | EmptyString => if is_space c then EmptyString else String c EmptyString
      | r' => String c r'
      end
  end.

(** The digits of a literal, its underscores removed: digits, with single
    underscores between digits only. [after_digit] says that the character
    before is a digit. *)
Fixpoint literal_digits (after_digit : bool) (s : string) : option string :=
  match s with
  | EmptyString => if after_digit then Some EmptyString else None
  | String c r =>
      if is_digit c then option_map (String c) (literal_digits true r)
      else if Ascii.eqb c "_"%char then
        if after_digit then literal_digits false r else None
      else None
  end.

Definition unsigned_literal (s : string) : option Z :=
  match literal_digits false s with
  | Some ds => option_map Z.of_uint (NilZero.uint_of_string ds)
  | None => None
  end.

(** [int(s)] in base 10; [None] is ValueError. *)
Definition int_of_str (s : string) : option Z :=
  match rstrip (lstrip s) with
  | String "+" r => unsigned_literal r
  | String "-" r => option_map Z.opp (unsigned_literal r)
  | t => unsigned_literal t
  end.

(** [str(n)] on an int. *)
Definition str_of_int (n : Z) : string := NilZero.string_of_int (Z.to_int n).

(** ** Operations on values *)

(** [bool(v)]. *)
Definition py_truthy (v : pyval) : bool :=
  match v with
  | PNone => false
  | PBool b => b
  | PInt n => negb (n =? 0)
  | PStr s => negb (String.eqb s EmptyString)
  | PList items => match items with [] => false | _ => true end
  | PDict entries => match entries with [] => false | _ => true end
  end.

(** [v[key]] with a string [key]. *)
Definition py_getitem (v : pyval) (key : string) : result pyval :=
  match v with
  | PDict d => match dict_get d key with Some x => Ok x | None => Raise KeyError end
  | _ => Raise TypeError
  end.

(** [v[key] = x] with a string [key]. *)
Definition py_setitem (v : pyval) (key : string) (x : pyval) : result pyval :=
  match v with
  | PDict d => Ok (PDict (dict_set d key x))
  | _ => Raise TypeError
  end.

Definition is_str (s : string) (v : pyval) : bool :=
  match v with PStr t => String.eqb t s | _ => false end.

(** [key in v] with a string [key]: a key of a dict, an element of a list,
    a substring of a string. *)
Definition py_contains (key : string) (v : pyval) : result bool :=
  match v with
  | PDict d => Ok (dict_has d key)
  | PList items => Ok (existsb (is_str key) items)
  | PStr s => Ok (str_contains key s)
  | _ => Raise TypeError
  end.

(** [len(v)]. *)
Definition py_len (v : pyval) : result Z :=
  match v with
  | PList items => Ok (Z.of_nat (length items))
  | PDict d => Ok (Z.of_nat (length d))
  | PStr s => Ok (Z.of_nat (String.length s))
  | _ => Raise TypeError
  end.

Fixpoint chars (s : string) : list pyval :=
  match s with
  | EmptyString => []
  | String c r => PStr (String c EmptyString) :: chars r
  end.

(** What [for x in v] goes through. *)
Definition py_iter (v : pyval) : result (list pyval) :=
  match v with
  | PList items => Ok items
  | PDict d => Ok (map (fun kv => PStr (fst kv)) d)
  | PStr s => Ok (chars s)
  | _ => Raise TypeError
  end.

(** [v.append(x)]: only a list has the method. *)
Definition py_append (v x : pyval) : result pyval :=
  match v with
  | PList items => Ok (PList (items ++ [x]))
  | _ => Raise AttributeError
  end.

(** [v.get(key, default)]: only a dict has the method. *)
Definition py_get (v : pyval) (key : string) (default : pyval) : result pyval :=
  match v with
  | PDict d => Ok (match dict_get d key with Some x => x | None => default end)
  | _ => Raise AttributeError
  end.

(** [v.split('.')]: only a string has the method. *)
Definition py_split_dot (v : pyval) : result (list string) :=
  match v with
  | PStr s => Ok (split_dot s)
  | _ => Raise AttributeError
  end.

(** *** Sets of hashable values *)

Definition py_hashable (v : pyval) : bool :=
  match v with
  | PList _ | PDict _ => false
  | _ => true
  end.

(** [a == b] on hashable values; [True] and [False] are the ints 1 and 0. *)
Definition py_key_eqb (a b : pyval) : bool :=
  match a, b with
  | PNone, PNone => true
  | PStr s, PStr t => String.eqb s t
  | PInt n, PInt m => n =? m
  | PInt n, PBool c => n =? Z.b2z c
  | PBool c, PInt m => Z.b2z c =? m
  | PBool c, PBool c' => Bool.eqb c c'
  | _, _ => false
  end.

(** A set is held as the list of what was added to it; the script only
    adds to the set and tests membership. *)
Definition pyset : Type := list pyval.

Definition set_add (s : pyset) (v : pyval) : result pyset :=
  if py_hashable v then Ok (v :: s) else Raise TypeError.

Definition set_contains (s : pyset) (v : pyval) : result bool :=
  if py_hashable v then Ok (existsb (py_key_eqb v) s) else Raise TypeError.

(** ** The candidates of the module

    The list [additional_patterns] of the script. The arrow in the examples
    is a code point above 255 and is held as its UTF-8 bytes; the script
    never looks into the examples. *)

Definition pattern_spec (find replace : string) : pyval :=
  PDict [("find", PStr find); ("replace", PStr replace)].

Definition candidate (name description : string) (examples : list string)
    (target find replace : string) : pyval :=
  PDict [("name", PStr name);
         ("description", PStr description);
         ("examples", PList (map PStr examples));
         (target, pattern_spec find replace);
         ("requires_confirmation", PBool false)].

Definition additional_patterns : list pyval :=
  [ candidate "Remove Anniversary Edition from Album"
      "Removes patterns like 'Album (50th Anniversary Edition)' from album names"
      ["Abbey Road (50th Anniversary Edition) → Abbey Road"; "Pet Sounds (50th Anniversary Edition) → Pet Sounds"]
      "album_name" "^(.+?) \(\d+th Anniversary Edition\)$" "$1";
    candidate "Remove Deluxe Remaster Album"
      "Removes patterns like 'Album (Deluxe Remaster)' from album names"
      ["Dark Side of the Moon (Deluxe Remaster) → Dark Side of the Moon"]
      "album_name" "^(.+?) \(Deluxe Remaster\)$" "$1";
    candidate "Remove Super Deluxe Edition Album"
      "Removes patterns like 'Album (Super Deluxe Edition)' from album names"
      ["The White Album (Super Deluxe Edition) → The White Album"]
      "album_name" "^(.+?) \(Super Deluxe Edition\)$" "$1";
    candidate "Remove HD Remastered"
      "Removes patterns like 'Song - HD Remastered'"
      ["Bohemian Rhapsody - HD Remastered → Bohemian Rhapsody"]
      "track_name" "^(.+?) - HD Remastered$" "$1";
    candidate "Remove Hi-Res Remaster"
      "Removes patterns like 'Song - Hi-Res Remaster'"
      ["Stairway to Heaven - Hi-Res Remaster → Stairway to Heaven"]
      "track_name" "^(.+?) - Hi-Res Remaster$" "$1";
    candidate "Remove Stereo Remaster"
      "Removes patterns like 'Song - Stereo Remaster' or 'Song - 2009 Stereo Remaster'"
      ["Come Together - 2009 Stereo Remaster → Come Together"; "Here Comes the Sun - Stereo Remaster → Here Comes the Sun"]
      "track_name" "^(.+?) - (\d{4} )?Stereo Remaster$" "$1";
    candidate "Remove Mono Remaster"
      "Removes patterns like 'Song - Mono Remaster' or 'Song - 2014 Mono Remaster'"
      ["I Want to Hold Your Hand - 2014 Mono Remaster → I Want to Hold Your Hand"]
      "track_name" "^(.+?) - (\d{4} )?Mono Remaster$" "$1";
    candidate "Remove Expanded Edition Track"
      "Removes patterns like 'Song - Expanded Edition'"
      ["Norwegian Wood - Expanded Edition → Norwegian Wood"]
      "track_name" "^(.+?) - Expanded Edition$" "$1";
    candidate "Remove Collector's Edition Track"
      "Removes patterns like 'Song - Collector's Edition'"
      ["Love Me Do - Collector's Edition → Love Me Do"]
      "track_name" "^(.+?) - Collector's Edition$" "$1";
    candidate "Remove Anniversary Remaster Track"
      "Removes patterns like 'Song - 50th Anniversary Remaster'"
      ["Yesterday - 50th Anniversary Remaster → Yesterday"; "Help! - 25th Anniversary Remaster → Help!"]
      "track_name" "^(.+?) - \d+th Anniversary Remaster$" "$1";
    candidate "Remove Special Edition Track"
      "Removes patterns like 'Song - Special Edition'"
      ["Revolution - Special Edition → Revolution"]
      "track_name" "^(.+?) - Special Edition$" "$1";
    candidate "Remove Year Digital Remaster with Extra Info"
      "Removes patterns like 'Song - 2009 Digital Remaster / Extra Info'"
      ["The End - 2009 Digital Remaster / Medley → The End"]
      "track_name" "^(.+?) - \d{4} Digital Remaster / .*$" "$1" ].

(** ** The world of the script *)

(** What the script prints, the interpolated values kept apart from the
    fixed text. *)
Inductive message : Type :=
| MsgNotFound                                (* Current rules file not found! *)
| MsgCount (n : Z)                           (* Current rules count: {n} *)
| MsgAdded (name : pyval)                    (* Added new rule: {name} *)
| MsgSaved                                   (* Updated rules saved to ... *)
| MsgSummary (n : Z) (version : pyval)       (* Added {n} new rules. New version: {version} *)
| MsgTotal (n : Z)                           (* Total rules now: {n} *)
| MsgNoNew.                                  (* No new rules needed - ... *)

Inductive event : Type :=
| Printed (m : message)
| Written (doc : pyval).

(** The rules file ([None]: there is no such file) and what the run has
    done so far, oldest first. *)
Record world : Type := World {
  rules_file : option pyval;
  trace : list event
}.

Definition M (A : Type) : Type := world -> result A * world.

Definition ret {A : Type} (a : A) : M A := fun w => (Ok a, w).

Definition bind {A B : Type} (m : M A) (k : A -> M B) : M B :=
  fun w =>
    match m w with
    | (Ok a, w') => k a w'
    | (Raise e, w') => (Raise e, w')
    end.

Definition lift {A : Type} (r : result A) : M A := fun w => (r, w).

Definition emit (e : event) : M unit :=
  fun w => (Ok tt, World (rules_file w) (trace w ++ [e])).

Definition print (m : message) : M unit := emit (Printed m).

Notation "x <- m ;; k" := (bind m (fun x => k))
  (at level 61, m at next level, right associativity).
Notation "m ;;; k" := (bind m (fun _ => k))
  (at level 61, right associativity).

(** ** The script *)

(** [load_current_rules()]: the document of the rules file, or [None] after
    the report that there is no file. *)
Definition load_current_rules : M pyval :=
  fun w =>
    match rules_file w with
    | Some doc => (Ok doc, w)
    | None => (print MsgNotFound ;;; ret PNone) w
    end.

(** [save_updated_rules(rules_data)]. *)
Definition save_updated_rules (rules_data : pyval) : M unit :=
  (fun w => (Ok tt, World (Some rules_data) (trace w ++ [Written rules_data]))) ;;;
  print MsgSaved.

(** The test of the scan over the catalog's rules,
    ['track_name' in rule and 'find' in rule['track_name']],
    and the value the scan then adds: [rule['track_name']['find']]. *)
Definition track_find (rule : pyval) : result (option pyval) :=
  has_track <~ py_contains "track_name" rule ;;
  if has_track then
    track_name <~ py_getitem rule "track_name" ;;
    has_find <~ py_contains "find" track_name ;;
    if has_find then
      find <~ py_getitem track_name "find" ;;
      Ok (Some find)
    else Ok None
  else Ok None.

(** The loop that fills [existing_patterns]. *)
Fixpoint scan_rules (rules : list pyval) (existing_patterns : pyset)
  : result pyset :=
  match rules with
  | [] => Ok existing_patterns
  | rule :: rest =>
      found <~ track_find rule ;;
      match found with
      | Some find =>
          existing_patterns <~ set_add existing_patterns find ;;
          scan_rules rest existing_patterns
      | None => scan_rules rest existing_patterns
      end
  end.

Definition scan_existing (rules : pyval) : result pyset :=
  items <~ py_iter rules ;;
  scan_rules items [].

(** [pattern_key] of a candidate: [None], or the [find] of its
    [track_name], or else of its [album_name]. *)
Definition pattern_key (pattern : pyval) : result pyval :=
  has_track <~ py_contains "track_name" pattern ;;
  if has_track then
    track_name <~ py_getitem pattern "track_name" ;;
    py_getitem track_name "find"
  else
    has_album <~ py_contains "album_name" pattern ;;
    if has_album then
      album_name <~ py_getitem pattern "album_name" ;;
      py_getitem album_name "find"
    else Ok PNone.

(** [pattern_key and pattern_key not in existing_patterns]. *)
Definition uncovered (existing_patterns : pyset) (pattern : pyval) : result bool :=
  key <~ pattern_key pattern ;;
  if py_truthy key then
    known <~ set_contains existing_patterns key ;;
    Ok (negb known)
  else Ok false.

(** The loop over the candidates. [current_rules['rules'].append(pattern)]
    changes the list inside the dict; here the longer list is stored back
    under its key, which keeps the key where it is. *)
Fixpoint add_new_patterns (existing_patterns : pyset) (patterns : list pyval)
    (current_rules : pyval) (new_rules_added : Z) : M (pyval * Z) :=
  match patterns with
  | [] => ret (current_rules, new_rules_added)
  | pattern :: rest =>
      is_new <- lift (uncovered existing_patterns pattern) ;;
      if is_new : bool then
        rules <- lift (py_getitem current_rules "rules") ;;
        rules <- lift (py_append rules pattern) ;;
        current_rules <- lift (py_setitem current_rules "rules" rules) ;;
        name <- lift (py_getitem pattern "name") ;;
        print (MsgAdded name) ;;;
        add_new_patterns existing_patterns rest current_rules (new_rules_added + 1)
      else
        add_new_patterns existing_patterns rest current_rules new_rules_added
  end.

(** The new version: the second part of the dotted version, plus one. *)
Definition bump_version (current_version : pyval) : result string :=
  version_parts <~ py_split_dot current_version ;;
  match version_parts with
  | major :: minor :: rest =>
      match int_of_str minor with
      | Some n => Ok (join_dot (major :: str_of_int (n + 1) :: rest))
      | None => Raise ValueError
      end
  | _ => Raise IndexError
  end.

Definition description_of (new_rules_added : Z) : string :=
  "Comprehensive set of rewrite rules to remove remaster information from track and album names, based on analysis of 600+ real Last.fm tracks. Updated with "
  ++ str_of_int new_rules_added ++ " additional patterns.".

(** The first half of the [if new_rules_added > 0] block: version and
    description. *)
Definition update_version_and_description (current_rules : pyval)
    (new_rules_added : Z) : result pyval :=
  current_version <~ py_get current_rules "version" (PStr "1.0") ;;
  version <~ bump_version current_version ;;
  current_rules <~ py_setitem current_rules "version" (PStr version) ;;
  py_setitem current_rules "description" (PStr (description_of new_rules_added)).

(** The merge: what [analyze_and_update] does to the loaded catalog before
    it saves it. The result is the catalog and [new_rules_added]. *)
Definition merge_rules (additional_patterns : list pyval) (current_rules : pyval)
  : M (pyval * Z) :=
  rules <- lift (py_getitem current_rules "rules") ;;
  count <- lift (py_len rules) ;;
  print (MsgCount count) ;;;
  existing_patterns <- lift (scan_existing rules) ;;
  merged <- add_new_patterns existing_patterns additional_patterns current_rules 0 ;;
  let (current_rules, new_rules_added) := merged : pyval * Z in
  if 0 <? new_rules_added then
    current_rules <- lift (update_version_and_description current_rules new_rules_added) ;;
    ret (current_rules, new_rules_added)
  else ret (current_rules, new_rules_added).

(** [analyze_and_update()], the candidates [additional_patterns] of the
    module made a parameter. The [if new_rules_added > 0] block is cut at
    the call of [save_updated_rules]: its first half closes [merge_rules],
    its second half is here. *)
Definition analyze_and_update (additional_patterns : list pyval) : M unit :=
  current_rules <- load_current_rules ;;
  if negb (py_truthy current_rules) then ret tt
  else
    merged <- merge_rules additional_patterns current_rules ;;
    let (current_rules, new_rules_added) := merged : pyval * Z in
    if 0 <? new_rules_added then
      save_updated_rules current_rules ;;;
      version <- lift (py_getitem current_rules "version") ;;
      print (MsgSummary new_rules_added version) ;;;
      rules <- lift (py_getitem current_rules "rules") ;;
      total <- lift (py_len rules) ;;
      print (MsgTotal total)
    else print MsgNoNew.

(** ** Shapes and the specification's reading of the loop *)

(** A pattern spec as the catalog has them: a dict whose [find] is a
    string. [None] is a field that is not there. *)
Definition spec_ok (field : option pyval) : bool :=
  match field with
  | None => true
  | Some (PDict spec) =>
      match dict_get spec "find" with
      | Some (PStr _) => true
      | _ => false
      end
  | Some _ => false
  end.

(** A rule of the catalog: a dict whose pattern specs, where it has them,
    are well shaped. *)
Definition rule_ok (rule : pyval) : bool :=
  match rule with
  | PDict r => spec_ok (dict_get r "track_name") && spec_ok (dict_get r "album_name")
  | _ => false
  end.

(** A candidate: a rule with a name. It may lack both pattern specs. *)
Definition candidate_ok (pattern : pyval) : bool :=
  match pattern with
  | PDict r => dict_has r "name" && rule_ok pattern
  | _ => false
  end.

Definition find_of (spec : pyval) : option pyval :=
  match spec with
  | PDict s => dict_get s "find"
  | _ => None
  end.

(** The identity key in the specification's words: [track_name.find] if
    present, else [album_name.find]; absent when the candidate has neither
    field. *)
Definition identity_key (pattern : pyval) : option pyval :=
  match pattern with
  | PDict r =>
      match dict_get r "track_name" with
      | Some spec => find_of spec
      | None =>
          match dict_get r "album_name" with
          | Some spec => find_of spec
          | None => None
          end
      end
  | _ => None
  end.

(** A candidate whose key does not come from an [album_name]: it has a
    [track_name] pattern spec, or no pattern spec at all. *)
Definition track_candidate (pattern : pyval) : bool :=
  candidate_ok pattern &&
  match pattern with
  | PDict r => dict_has r "track_name" || negb (dict_has r "album_name")
  | _ => false
  end.

(** The [find] of a rule's [track_name] pattern spec, if the rule has
    one: what the specification's existing-key set is made of. *)
Definition rule_track_find (rule : pyval) : option pyval :=
  match rule with
  | PDict r =>
      match dict_get r "track_name" with
      | Some spec => find_of spec
      | None => None
      end
  | _ => None
  end.

Definition track_finds (rules : list pyval) : list pyval :=
  flat_map (fun rule => match rule_track_find rule with
                        | Some find => [find]
                        | None => []
                        end) rules.

(** The version the bump starts from: the catalog's, or "1.0" when the
    catalog has none. *)
Definition version_or_default (d : list (string * pyval)) : pyval :=
  match dict_get d "version" with
  | Some version => version
  | None => PStr "1.0"
  end.

(** The catalog after a merge that added [added]. *)
Definition updated_catalog (d : list (string * pyval)) (rules added : list pyval)
    (version : string) : pyval :=
  PDict (dict_set
           (dict_set (dict_set d "rules" (PList (rules ++ added)))
                     "version" (PStr version))
           "description" (PStr (description_of (Z.of_nat (length added))))).

Definition in_keys (existing : pyset) (key : pyval) : bool :=
  existsb (py_key_eqb key) existing.

(** The skip rule as the specification words it: the key is absent or is
    already in the existing-key set. *)
Definition claimed_skip (existing : pyset) (pattern : pyval) : bool :=
  match identity_key pattern with
  | None => true
  | Some key => in_keys existing key
  end.

(** The skip rule as amended: the key is absent, or is falsy (for a
    string: empty), or is already in the existing-key set. *)
Definition skips (existing : pyset) (pattern : pyval) : bool :=
  match identity_key pattern with
  | None => true
  | Some key => negb (py_truthy key) || in_keys existing key
  end.

Definition appends (existing : pyset) (pattern : pyval) : bool :=
  negb (skips existing pattern).

(** The candidates for which the test of the loop is true. *)
Definition is_uncovered (existing : pyset) (pattern : pyval) : bool :=
  match uncovered existing pattern with
  | Ok true => true
  | _ => false
  end.

(** A candidate the loop gets through: the test is evaluated, and a
    candidate that passes it has a name to report. *)
Definition runs (existing : pyset) (pattern : pyval) : bool :=
  match uncovered existing pattern with
  | Ok true =>
      match py_getitem pattern "name" with
      | Ok _ => true
      | Raise _ => false
      end
  | Ok false => true
  | Raise _ => false
  end.

Definition name_of (pattern : pyval) : pyval :=
  match py_getitem pattern "name" with
  | Ok name => name
  | Raise _ => PNone
  end.

Definition report_added (added : list pyval) : list event :=
  map (fun pattern => Printed (MsgAdded (name_of pattern))) added.

Definition is_written (e : event) : bool :=
  match e with
  | Written _ => true
  | Printed _ => false
  end.

(** A version the bump refuses: fewer than two dotted parts, or a second
    part that [int] does not read. *)
Definition malformed_version (version : string) : bool :=
  match split_dot version with
  | _ :: minor :: _ =>
      match int_of_str minor with
      | Some _ => false
      | None => true
      end
  | _ => true
  end.

Fixpoint no_dot (s : string) : bool :=
  match s with
  | EmptyString => true
  | String c r => negb (Ascii.eqb c "."%char) && no_dot r
  end.

Fixpoint all_digits (s : string) : bool :=
  match s with
  | EmptyString => true
  | String c r => is_digit c && all_digits r
  end.

(** The documents a stretch of the trace wrote to the rules file. *)
Definition writes (events : list event) : list pyval :=
  flat_map (fun e => match e with
                     | Written doc => [doc]
                     | Printed _ => []
                     end) events.

(** The keys of a dict, in order. *)
Definition keys (d : list (string * pyval)) : list string := map fst d.

(** A candidate with a key that is not falsy. *)
Definition has_key (pattern : pyval) : bool :=
  match identity_key pattern with
  | Some key => py_truthy key
  | None => false
  end.

(** What the script prints and writes after a merge that added [n] rules
    and left [total] rules in the catalog [merged]. *)
Definition save_report (merged : pyval) (n : Z) (version : pyval) (total : Z)
  : list event :=
  [Written merged; Printed MsgSaved; Printed (MsgSummary n version);
   Printed (MsgTotal total)].

(** ** Sample catalogs and candidates *)

Module Samples.

Definition remastered : pyval :=
  PDict [("track_name", pattern_spec "^(.+) - Remastered$" "$1")].

Definition hd_remastered : pyval :=
  PDict [("track_name", pattern_spec "^(.+) - HD Remastered$" "$1");
         ("name", PStr "Remove HD Remastered")].

(** Scenario A of the specification. *)
Definition catalog_a : pyval :=
  PDict [("version", PStr "1.2"); ("rules", PList [remastered])].

Definition candidates_a : list pyval := [remastered; hd_remastered].

(** What the merge of Scenario A gives. *)
Definition merged_a : pyval :=
  PDict [("version", PStr "1.3");
         ("rules", PList [remastered; hd_remastered]);
         ("description", PStr "Comprehensive set of rewrite rules to remove remaster information from track and album names, based on analysis of 600+ real Last.fm tracks. Updated with 1 additional patterns.")].

Definition world_a : world :=
  World None [Printed (MsgCount 1); Printed (MsgAdded (PStr "Remove HD Remastered"))].

(** A catalog with a three part version. *)
Definition catalog_three : pyval :=
  PDict [("version", PStr "1.2.3"); ("rules", PList [remastered])].

Definition merged_three : pyval :=
  PDict [("version", PStr "1.3.3");
         ("rules", PList [remastered; hd_remastered]);
         ("description", PStr "Comprehensive set of rewrite rules to remove remaster information from track and album names, based on analysis of 600+ real Last.fm tracks. Updated with 1 additional patterns.")].

Definition entries_a : list (string * pyval) :=
  [("version", PStr "1.2"); ("rules", PList [remastered])].

(** A catalog with no version, one with a version of one part, and one
    whose first part is no number. *)
Definition entries_no_version : list (string * pyval) :=
  [("description", PStr "none yet"); ("rules", PList [])].

Definition entries_one_part : list (string * pyval) :=
  [("version", PStr "1"); ("rules", PList [])].

Definition entries_named_major : list (string * pyval) :=
  [("version", PStr "x.5"); ("rules", PList [])].

Definition empty_catalog : pyval :=
  PDict [("version", PStr "1.0"); ("description", PStr ""); ("rules", PList [])].

Definition album_rule : pyval :=
  candidate "Remove Deluxe Remaster Album" "" [] "album_name"
    "^(.+?) \(Deluxe Remaster\)$" "$1".

(** The empty catalog after one merge of [album_rule], and after two. *)
Definition album_once : pyval :=
  PDict [("version", PStr "1.1");
         ("description", PStr "Comprehensive set of rewrite rules to remove remaster information from track and album names, based on analysis of 600+ real Last.fm tracks. Updated with 1 additional patterns.");
         ("rules", PList [album_rule])].

Definition album_twice : pyval :=
  PDict [("version", PStr "1.2");
         ("description", PStr "Comprehensive set of rewrite rules to remove remaster information from track and album names, based on analysis of 600+ real Last.fm tracks. Updated with 1 additional patterns.");
         ("rules", PList [album_rule; album_rule])].

Definition empty_key_a : pyval :=
  candidate "Empty pattern A" "" [] "track_name" "" "$1".

Definition empty_key_b : pyval :=
  candidate "Empty pattern B" "" [] "track_name" "" "$2".

Definition live_a : pyval :=
  candidate "Remove Live A" "" [] "track_name" "^(.+?) - Live$" "$1".

Definition live_b : pyval :=
  candidate "Remove Live B" "" [] "track_name" "^(.+?) - Live$" "$1".

Definition no_pattern : pyval :=
  PDict [("name", PStr "No pattern")].

(** The world after the whole script ran on Scenario A. *)
Definition saved_a : world :=
  World (Some merged_a)
        [Printed (MsgCount 1); Printed (MsgAdded (PStr "Remove HD Remastered"));
         Written merged_a; Printed MsgSaved; Printed (MsgSummary 1 (PStr "1.3"));
         Printed (MsgTotal 2)].

(** A catalog with more fields than the script knows, and what the merge
    of Scenario A makes of it. *)
Definition entries_more : list (string * pyval) :=
  [("schema", PInt 2); ("rules", PList [remastered]); ("version", PStr "1.2");
   ("author", PStr "someone")].

Definition merged_more : pyval :=
  PDict [("schema", PInt 2); ("rules", PList [remastered; hd_remastered]);
         ("version", PStr "1.3"); ("author", PStr "someone");
         ("description", PStr "Comprehensive set of rewrite rules to remove remaster information from track and album names, based on analysis of 600+ real Last.fm tracks. Updated with 1 additional patterns.")].

(** A catalog whose version is no string. *)
Definition entries_numbered : list (string * pyval) :=
  [("version", PInt 3); ("rules", PList [remastered])].

(** Scenario A with a second rule in the catalog, in both orders. *)
Definition entries_ab : list (string * pyval) :=
  [("version", PStr "1.2"); ("rules", PList [remastered; live_a])].

Definition entries_ba : list (string * pyval) :=
  [("version", PStr "1.2"); ("rules", PList [live_a; remastered])].

(** A catalog that holds one [album_name] rule, and an [album_name]
    candidate with the same [find] under another name. *)
Definition entries_album : list (string * pyval) :=
  [("version", PStr "1.1"); ("rules", PList [album_rule])].

Definition album_again : pyval :=
  candidate "Remove Deluxe Remaster once more" "" [] "album_name"
    "^(.+?) \(Deluxe Remaster\)$" "$1".

(** A new candidate that has no name. *)
Definition nameless : pyval :=
  PDict [("track_name", pattern_spec "^(.+?) - Demo$" "$1")].

(** A catalog with no [rules], and one whose [rules] are a number. *)
Definition entries_no_rules : list (string * pyval) :=
  [("version", PStr "1.0")].

Definition entries_counted : list (string * pyval) :=
  [("version", PStr "1.0"); ("rules", PInt 7)].

(** The script run on Scenario A a second time. *)
Definition saved_a_again : world :=
  World (Some merged_a)
        [Printed (MsgCount 1); Printed (MsgAdded (PStr "Remove HD Remastered"));
         Written merged_a; Printed MsgSaved; Printed (MsgSummary 1 (PStr "1.3"));
         Printed (MsgTotal 2); Printed (MsgCount 2); Printed MsgNoNew].

(** A catalog whose version has a second part that is no number. *)
Definition entries_lettered : list (string * pyval) :=
  [("version", PStr "1.x"); ("rules", PList [remastered])].

(** Scenario A with a version of one part. *)
Definition entries_single : list (string * pyval) :=
  [("version", PStr "7"); ("rules", PList [remastered])].

End Samples.

(** * Properties *)

(** ** Dicts *)

Lemma dict_get_set_same (d : list (string * pyval)) (key : string) (v : pyval) :
  dict_get (dict_set d key v) key = Some v.
Proof.
  induction d as [|[k x] rest IH]; simpl.
  - now rewrite String.eqb_refl.
  - destruct (String.eqb k key) eqn:E; simpl; rewrite E; auto.
Qed.

Lemma dict_get_set_other (d : list (string * pyval)) (key other : string) (v : pyval) :
  key <> other -> dict_get (dict_set d key v) other = dict_get d other.
Proof.
  intros Hne. induction d as [|[k x] rest IH]; simpl.
  - destruct (String.eqb key other) eqn:E; auto.
    apply String.eqb_eq in E. contradiction.
  - destruct (String.eqb k key) eqn:E; simpl.
    + apply String.eqb_eq in E. subst k.
      destruct (String.eqb key other) eqn:E'; auto.
      apply String.eqb_eq in E'. contradiction.
    + destruct (String.eqb k other); auto.
Qed.

Lemma dict_set_set (d : list (string * pyval)) (key : string) (v v' : pyval) :
  dict_set (dict_set d key v) key v' = dict_set d key v'.
Proof.
  induction d as [|[k x] rest IH]; simpl.
  - now rewrite String.eqb_refl.
  - destruct (String.eqb k key) eqn:E; simpl; rewrite E; auto.
    now rewrite IH.
Qed.

Lemma dict_set_get_id (d : list (string * pyval)) (key : string) (v : pyval) :
  dict_get d key = Some v -> dict_set d key v = d.
Proof.
  induction d as [|[k x] rest IH]; simpl; [discriminate|].
  destruct (String.eqb k key) eqn:E.
  - intros [= ->]. reflexivity.
  - intros H. now rewrite IH.
Qed.

(** ** The monad *)

Lemma rbind_ok {A B : Type} (r : result A) (k : A -> result B) (b : B) :
  rbind r k = Ok b -> exists a, r = Ok a /\ k a = Ok b.
Proof. destruct r; simpl; [eauto | discriminate]. Qed.

Lemma bind_ok {A B : Type} (m : M A) (k : A -> M B) (w w' : world) (b : B) :
  bind m k w = (Ok b, w') ->
  exists a w1, m w = (Ok a, w1) /\ k a w1 = (Ok b, w').
Proof.
  unfold bind. destruct (m w) as [[a|e] w1]; [eauto | discriminate].
Qed.

Lemma lift_ok {A : Type} (r : result A) (w w' : world) (a : A) :
  lift r w = (Ok a, w') -> r = Ok a /\ w' = w.
Proof. unfold lift. now intros [= -> ->]. Qed.

Lemma emit_ok (e : event) (w w' : world) (u : unit) :
  emit e w = (Ok u, w') -> w' = World (rules_file w) (trace w ++ [e]).
Proof. unfold emit. now intros [= _ <-]. Qed.

(** Takes a successful run of a sequence of steps apart. *)
Ltac run_inv H :=
  repeat match type of H with
  | bind _ _ _ = (Ok _, _) =>
      let a := fresh "a" in let w1 := fresh "w" in
      let H1 := fresh "Hstep" in
      apply bind_ok in H; destruct H as (a & w1 & H1 & H);
      first [ apply lift_ok in H1; destruct H1 as [H1 ->]
            | apply emit_ok in H1; subst w1
            | idtac ]
  end.

Lemma bind_lift {A B : Type} (r : result A) (k : A -> M B) (w : world) (a : A) :
  r = Ok a -> bind (lift r) k w = k a w.
Proof. intros ->. reflexivity. Qed.

Lemma bind_print {B : Type} (m : message) (k : unit -> M B) (w : world) :
  bind (print m) k w = k tt (World (rules_file w) (trace w ++ [Printed m])).
Proof. reflexivity. Qed.

Lemma world_trace_nil (w : world) : World (rules_file w) (trace w ++ []) = w.
Proof. destruct w; simpl. now rewrite app_nil_r. Qed.

(** ** The loop over the candidates *)

Lemma is_uncovered_true (existing : pyset) (pattern : pyval) :
  is_uncovered existing pattern = true <-> uncovered existing pattern = Ok true.
Proof.
  unfold is_uncovered.
  destruct (uncovered existing pattern) as [[|]|e]; split; congruence.
Qed.

Lemma getitem_dict (d : list (string * pyval)) (key : string) (v : pyval) :
  dict_get d key = Some v -> py_getitem (PDict d) key = Ok v.
Proof. intros H. simpl. now rewrite H. Qed.

(** On a catalog whose rules are a list, the loop appends the candidates
    that pass its test, in order, counts them and reports their names. *)
Lemma add_new_patterns_run (existing : pyset) (patterns : list pyval) :
  forall (d : list (string * pyval)) (rules : list pyval) (n : Z) (w : world),
    dict_get d "rules" = Some (PList rules) ->
    forallb (runs existing) patterns = true ->
    add_new_patterns existing patterns (PDict d) n w =
      (Ok (PDict (dict_set d "rules"
                    (PList (rules ++ filter (is_uncovered existing) patterns))),
           n + Z.of_nat (length (filter (is_uncovered existing) patterns))),
       World (rules_file w)
             (trace w ++ report_added (filter (is_uncovered existing) patterns))).
Proof.
  induction patterns as [|pattern rest IH]; intros d rules n w Hrules Hruns.
  - simpl. rewrite app_nil_r, Z.add_0_r, world_trace_nil.
    now rewrite (dict_set_get_id _ _ _ Hrules).
  - simpl in Hruns. apply andb_true_iff in Hruns as [Hrun Hrest].
    unfold runs in Hrun. cbn [add_new_patterns filter].
    destruct (uncovered existing pattern) as [[|]|e] eqn:Hunc; try discriminate.
    + destruct (py_getitem pattern "name") as [name|e] eqn:Hname; try discriminate.
      rewrite (proj2 (is_uncovered_true _ _) Hunc).
      rewrite (bind_lift _ _ _ true eq_refl).
      rewrite (bind_lift _ _ _ _ (getitem_dict _ _ _ Hrules)).
      rewrite (bind_lift _ _ _ (PList (rules ++ [pattern])) eq_refl).
      rewrite (bind_lift _ _ _ (PDict (dict_set d "rules" (PList (rules ++ [pattern]))))
                 eq_refl).
      rewrite (bind_lift _ _ _ name eq_refl), bind_print.
      rewrite (IH _ (rules ++ [pattern]) _ _ (dict_get_set_same _ _ _) Hrest).
      assert (Hn : name_of pattern = name) by (unfold name_of; now rewrite Hname).
      rewrite dict_set_set. unfold report_added.
      cbn [length map rules_file trace]. rewrite Hn, <- !app_assoc. cbn [app].
      rewrite Nat2Z.inj_succ, <- Z.add_1_l, Z.add_assoc. reflexivity.
    + assert (Hu : is_uncovered existing pattern = false).
      { unfold is_uncovered. now rewrite Hunc. }
      rewrite Hu, (bind_lift _ _ _ false eq_refl). now apply IH.
Qed.

(** With no candidate passing the test the loop leaves everything as it
    is, whatever the catalog. *)
Lemma add_new_patterns_nothing (existing : pyset) (patterns : list pyval)
    (current_rules : pyval) (n : Z) (w : world) :
  forallb (runs existing) patterns = true ->
  filter (is_uncovered existing) patterns = [] ->
  add_new_patterns existing patterns current_rules n w = (Ok (current_rules, n), w).
Proof.
  induction patterns as [|pattern rest IH]; intros Hruns Hnone; [reflexivity|].
  simpl in Hruns. apply andb_true_iff in Hruns as [Hrun Hrest].
  unfold runs in Hrun. cbn [add_new_patterns filter] in *.
  destruct (is_uncovered existing pattern) eqn:Hu; [discriminate|].
  destruct (uncovered existing pattern) as [[|]|e] eqn:Hunc; try discriminate.
  - apply is_uncovered_true in Hunc. congruence.
  - rewrite (bind_lift _ _ _ false eq_refl). now apply IH.
Qed.

(** A loop that ends went through every candidate, and appended to a
    list if it appended at all. *)
Lemma add_new_patterns_inv (existing : pyset) (patterns : list pyval) :
  forall (current_rules : pyval) (n : Z) (w : world) (out : pyval * Z) (w' : world),
    add_new_patterns existing patterns current_rules n w = (Ok out, w') ->
    forallb (runs existing) patterns = true /\
    (filter (is_uncovered existing) patterns = [] \/
     exists d rules, current_rules = PDict d /\
                     dict_get d "rules" = Some (PList rules)).
Proof.
  induction patterns as [|pattern rest IH]; intros cur n w out w' Hrun.
  - split; [reflexivity | now left].
  - cbn [add_new_patterns filter forallb] in *. unfold runs at 1.
    apply bind_ok in Hrun as (is_new & w1 & Hnew & Hrun).
    apply lift_ok in Hnew as [Hnew ->]. rewrite Hnew.
    destruct is_new.
    + run_inv Hrun.
      rewrite (proj2 (is_uncovered_true _ _) Hnew).
      destruct cur as [| | | | |d]; try discriminate.
      simpl in Hstep. destruct (dict_get d "rules") as [rules|] eqn:Hrules;
        [|discriminate].
      injection Hstep as ->.
      destruct a as [| | | |items|]; try discriminate.
      rewrite Hstep2. apply IH in Hrun as [Hruns _].
      split; [exact Hruns | right; eauto].
    + assert (Hu : is_uncovered existing pattern = false).
      { unfold is_uncovered. now rewrite Hnew. }
      rewrite Hu. now apply IH in Hrun.
Qed.

(** ** Numbers and dotted versions *)

Lemma digit_not_space (c : ascii) : is_digit c = true -> is_space c = false.
Proof.
  destruct c as [[|] [|] [|] [|] [|] [|] [|] [|]]; vm_compute; congruence.
Qed.

Lemma digit_not_dot (c : ascii) : is_digit c = true -> Ascii.eqb c "."%char = false.
Proof.
  destruct c as [[|] [|] [|] [|] [|] [|] [|] [|]]; vm_compute; congruence.
Qed.

Lemma string_of_uint_digits (d : uint) :
  all_digits (NilEmpty.string_of_uint d) = true.
Proof. induction d; simpl; auto. Qed.

Lemma lstrip_digits (s : string) : all_digits s = true -> lstrip s = s.
Proof.
  destruct s as [|c r]; simpl; auto.
  intros H. apply andb_true_iff in H as [Hc _].
  now rewrite (digit_not_space _ Hc).
Qed.

Lemma rstrip_digits (s : string) : all_digits s = true -> rstrip s = s.
Proof.
  induction s as [|c r IH]; simpl; auto.
  intros H. apply andb_true_iff in H as [Hc Hr].
  rewrite (IH Hr). destruct r; auto.
  now rewrite (digit_not_space _ Hc).
Qed.

Lemma literal_digits_digits (s : string) :
  all_digits s = true -> literal_digits true s = Some s.
Proof.
  induction s as [|c r IH]; simpl; auto.
  intros H. apply andb_true_iff in H as [Hc Hr].
  now rewrite Hc, (IH Hr).
Qed.

Lemma unsigned_literal_digits (c : ascii) (r : string) :
  all_digits (String c r) = true ->
  unsigned_literal (String c r) =
    option_map Z.of_uint (NilZero.uint_of_string (String c r)).
Proof.
  intros H. unfold unsigned_literal. simpl in *.
  apply andb_true_iff in H as [Hc Hr].
  now rewrite Hc, (literal_digits_digits _ Hr).
Qed.

Lemma int_of_str_digits (c : ascii) (r : string) :
  all_digits (String c r) = true ->
  int_of_str (String c r) = unsigned_literal (String c r).
Proof.
  intros H. unfold int_of_str.
  rewrite (lstrip_digits _ H), (rstrip_digits _ H).
  simpl in H. apply andb_true_iff in H as [Hc _].
  destruct c as [[|] [|] [|] [|] [|] [|] [|] [|]]; try reflexivity;
    vm_compute in Hc; discriminate.
Qed.

Lemma int_of_str_pos (p : positive) :
  int_of_str (NilEmpty.string_of_uint (Pos.to_uint p)) = Some (Z.pos p).
Proof.
  pose proof (string_of_uint_digits (Pos.to_uint p)) as Hd.
  pose proof (DecimalPos.Unsigned.to_uint_nonnil p) as Hnn.
  pose proof (NilZero.usu _ Hnn) as Hu.
  assert (Hs : NilZero.string_of_uint (Pos.to_uint p)
               = NilEmpty.string_of_uint (Pos.to_uint p)).
  { destruct (Pos.to_uint p); auto. contradiction. }
  rewrite Hs in Hu.
  destruct (NilEmpty.string_of_uint (Pos.to_uint p)) as [|c r] eqn:E.
  - discriminate.
  - rewrite (int_of_str_digits _ _ Hd), (unsigned_literal_digits _ _ Hd), Hu.
    simpl. unfold Z.of_uint. now rewrite DecimalPos.Unsigned.of_to.
Qed.

Lemma str_of_int_pos (p : positive) :
  str_of_int (Z.pos p) = NilEmpty.string_of_uint (Pos.to_uint p).
Proof.
  unfold str_of_int. simpl.
  pose proof (DecimalPos.Unsigned.to_uint_nonnil p) as Hnn.
  destruct (Pos.to_uint p); auto. contradiction.
Qed.

Lemma str_of_int_neg (p : positive) :
  str_of_int (Z.neg p) = String "-" (NilEmpty.string_of_uint (Pos.to_uint p)).
Proof.
  unfold str_of_int. simpl.
  pose proof (DecimalPos.Unsigned.to_uint_nonnil p) as Hnn.
  destruct (Pos.to_uint p); auto. contradiction.
Qed.

(** [int(str(n)) == n]. *)
Lemma int_of_str_of_int (n : Z) : int_of_str (str_of_int n) = Some n.
Proof.
  destruct n as [|p|p].
  - reflexivity.
  - rewrite str_of_int_pos. apply int_of_str_pos.
  - rewrite str_of_int_neg.
    pose proof (int_of_str_pos p) as Hp.
    pose proof (string_of_uint_digits (Pos.to_uint p)) as Hd.
    destruct (NilEmpty.string_of_uint (Pos.to_uint p)) as [|c r] eqn:E.
    + discriminate.
    + rewrite (int_of_str_digits _ _ Hd) in Hp.
      unfold int_of_str.
      change (lstrip (String "-" (String c r))) with (String "-" (String c r)).
      assert (Hr : rstrip (String "-" (String c r)) = String "-" (String c r)).
      { change (rstrip (String "-" (String c r)))
          with (match rstrip (String c r) with
                | EmptyString => String "-" EmptyString
                | r' => String "-" r'
                end).
        now rewrite (rstrip_digits _ Hd). }
      rewrite Hr, Hp. reflexivity.
Qed.

Lemma all_digits_no_dot (s : string) : all_digits s = true -> no_dot s = true.
Proof.
  induction s as [|c r IH]; simpl; auto.
  intros H. apply andb_true_iff in H as [Hc Hr].
  now rewrite (digit_not_dot _ Hc), (IH Hr).
Qed.

Lemma str_of_int_no_dot (n : Z) : no_dot (str_of_int n) = true.
Proof.
  destruct n as [|p|p].
  - reflexivity.
  - rewrite str_of_int_pos. apply all_digits_no_dot, string_of_uint_digits.
  - rewrite str_of_int_neg. simpl.
    apply all_digits_no_dot, string_of_uint_digits.
Qed.

Lemma split_dot_no_dot (s : string) : no_dot s = true -> split_dot s = [s].
Proof.
  induction s as [|c r IH]; simpl; auto.
  intros H. apply andb_true_iff in H as [Hc Hr].
  apply negb_true_iff in Hc. now rewrite Hc, (IH Hr).
Qed.

Lemma split_dot_app (s t : string) :
  no_dot s = true -> split_dot (s ++ String "." t) = s :: split_dot t.
Proof.
  induction s as [|c r IH]; simpl; auto.
  intros H. apply andb_true_iff in H as [Hc Hr].
  apply negb_true_iff in Hc. now rewrite Hc, (IH Hr).
Qed.

(** The parts of a split have no dot. *)
Lemma split_dot_parts (s : string) : forallb no_dot (split_dot s) = true.
Proof.
  induction s as [|c r IH]; simpl; auto.
  destruct (Ascii.eqb c ".") eqn:Hc; simpl; auto.
  destruct (split_dot r) as [|h t]; simpl in *.
  - now rewrite Hc.
  - now rewrite Hc.
Qed.

Lemma join_dot_cons (p q : string) (rest : list string) :
  join_dot (p :: q :: rest) = (p ++ String "." (join_dot (q :: rest)))%string.
Proof. reflexivity. Qed.

(** Splitting what was joined gives the parts back. *)
Lemma split_join (parts : list string) :
  parts <> [] -> forallb no_dot parts = true ->
  split_dot (join_dot parts) = parts.
Proof.
  induction parts as [|p rest IH]; [congruence|].
  intros _ H. simpl in H. apply andb_true_iff in H as [Hp Hrest].
  destruct rest as [|q rest'].
  - simpl. now apply split_dot_no_dot.
  - rewrite join_dot_cons, (split_dot_app _ _ Hp). f_equal.
    apply IH; [discriminate | exact Hrest].
Qed.

(** What the bump makes of a version with at least two parts. *)
Lemma bump_version_parts (version major minor : string) (rest : list string) (m : Z) :
  split_dot version = major :: minor :: rest ->
  int_of_str minor = Some m ->
  bump_version (PStr version) = Ok (join_dot (major :: str_of_int (m + 1) :: rest)) /\
  split_dot (join_dot (major :: str_of_int (m + 1) :: rest))
    = major :: str_of_int (m + 1) :: rest.
Proof.
  intros Hsplit Hint. split.
  - unfold bump_version. simpl. now rewrite Hsplit, Hint.
  - apply split_join; [discriminate|].
    pose proof (split_dot_parts version) as Hp. rewrite Hsplit in Hp.
    simpl in *. apply andb_true_iff in Hp as [Hmaj Hp].
    apply andb_true_iff in Hp as [_ Hrest].
    now rewrite Hmaj, str_of_int_no_dot, Hrest.
Qed.

Lemma bump_version_malformed (version : string) :
  malformed_version version = true ->
  bump_version (PStr version) = Raise IndexError \/
  bump_version (PStr version) = Raise ValueError.
Proof.
  unfold malformed_version, bump_version. simpl.
  destruct (split_dot version) as [|major [|minor rest]]; auto.
  destruct (int_of_str minor); [discriminate | auto].
Qed.

(** ** The scan of the catalog *)

Lemma dict_has_get (d : list (string * pyval)) (key : string) :
  dict_has d key = true -> exists v, dict_get d key = Some v.
Proof. unfold dict_has. destruct (dict_get d key); [eauto | discriminate]. Qed.

Lemma dict_has_false (d : list (string * pyval)) (key : string) :
  dict_has d key = false -> dict_get d key = None.
Proof. unfold dict_has. destruct (dict_get d key); [discriminate | auto]. Qed.

(** The test of the scan finds the [find] of the rule's [track_name]
    pattern spec, and nothing in a rule without one. *)
Lemma track_find_spec (rule : pyval) (found : option pyval) :
  track_find rule = Ok found -> found = rule_track_find rule.
Proof.
  unfold track_find, rule_track_find.
  destruct rule as [| | |s|items|r]; simpl; try discriminate.
  - destruct (str_contains "track_name" s); simpl; congruence.
  - destruct (existsb (is_str "track_name") items); simpl; congruence.
  - destruct (dict_has r "track_name") eqn:Hhas.
    + apply dict_has_get in Hhas as [spec Hspec]. rewrite Hspec. simpl.
      destruct spec as [| | |s|items|sp]; simpl; try discriminate.
      * destruct (str_contains "find" s); simpl; congruence.
      * destruct (existsb (is_str "find") items); simpl; congruence.
      * destruct (dict_has sp "find") eqn:Hfind.
        -- apply dict_has_get in Hfind as [f Hf]. rewrite Hf. simpl. congruence.
        -- apply dict_has_false in Hfind. rewrite Hfind. congruence.
    + apply dict_has_false in Hhas. rewrite Hhas. congruence.
Qed.

(** The scan collects exactly the [find] strings of the [track_name]
    pattern specs. *)
Lemma scan_rules_spec (rules : list pyval) :
  forall (acc existing : pyset),
    scan_rules rules acc = Ok existing ->
    existing = List.rev (track_finds rules) ++ acc.
Proof.
  induction rules as [|rule rest IH]; intros acc existing H; simpl in *.
  - congruence.
  - apply rbind_ok in H as (found & Hfound & H).
    apply track_find_spec in Hfound. rewrite <- Hfound.
    destruct found as [find|].
    + apply rbind_ok in H as (acc' & Hadd & H).
      unfold set_add in Hadd. destruct (py_hashable find); [|discriminate].
      injection Hadd as <-. apply IH in H. subst existing.
      simpl. now rewrite <- app_assoc.
    + now apply IH in H.
Qed.

Lemma scan_existing_spec (rules : pyval) (existing : pyset) :
  scan_existing rules = Ok existing ->
  exists items, py_iter rules = Ok items /\ existing = List.rev (track_finds items).
Proof.
  unfold scan_existing. intros H.
  apply rbind_ok in H as (items & Hiter & H).
  exists items. split; auto.
  apply scan_rules_spec in H. now rewrite app_nil_r in H.
Qed.

(** ** The test of the loop *)

Lemma pattern_key_identity (pattern key : pyval) :
  pattern_key pattern = Ok key ->
  identity_key pattern = Some key \/ (identity_key pattern = None /\ key = PNone).
Proof.
  unfold pattern_key, identity_key.
  destruct pattern as [| | |s|items|r]; simpl; try discriminate.
  - destruct (str_contains "track_name" s); simpl; [discriminate|].
    destruct (str_contains "album_name" s); simpl; [discriminate|].
    intros [= <-]. auto.
  - destruct (existsb (is_str "track_name") items); simpl; [discriminate|].
    destruct (existsb (is_str "album_name") items); simpl; [discriminate|].
    intros [= <-]. auto.
  - destruct (dict_has r "track_name") eqn:Htrack.
    + apply dict_has_get in Htrack as [spec Hspec]. rewrite Hspec. simpl.
      destruct spec as [| | | | |sp]; simpl; try discriminate.
      destruct (dict_get sp "find"); [|discriminate]. intros [= <-]. auto.
    + apply dict_has_false in Htrack. rewrite Htrack. simpl.
      destruct (dict_has r "album_name") eqn:Halbum.
      * apply dict_has_get in Halbum as [spec Hspec]. rewrite Hspec. simpl.
        destruct spec as [| | | | |sp]; simpl; try discriminate.
        destruct (dict_get sp "find"); [|discriminate]. intros [= <-]. auto.
      * apply dict_has_false in Halbum. rewrite Halbum. intros [= <-]. auto.
Qed.

(** When the test of the loop is evaluated, it is the skip rule. *)
Lemma uncovered_appends (existing : pyset) (pattern : pyval) (b : bool) :
  uncovered existing pattern = Ok b -> b = appends existing pattern.
Proof.
  unfold uncovered, appends, skips. intros H.
  apply rbind_ok in H as (key & Hkey & H).
  apply pattern_key_identity in Hkey as [-> | [-> ->]].
  - destruct (py_truthy key); simpl.
    + apply rbind_ok in H as (known & Hknown & H).
      unfold set_contains in Hknown. destruct (py_hashable key); [|discriminate].
      unfold in_keys. congruence.
    + congruence.
  - simpl in *. congruence.
Qed.

Lemma runs_is_uncovered (existing : pyset) (pattern : pyval) :
  runs existing pattern = true ->
  is_uncovered existing pattern = appends existing pattern.
Proof.
  unfold runs, is_uncovered.
  destruct (uncovered existing pattern) as [b|e] eqn:H; [|discriminate].
  apply uncovered_appends in H. destruct b; auto.
Qed.

Lemma filter_uncovered (existing : pyset) (patterns : list pyval) :
  forallb (runs existing) patterns = true ->
  filter (is_uncovered existing) patterns = filter (appends existing) patterns.
Proof.
  intros H. apply filter_ext_in. intros c Hc.
  apply runs_is_uncovered. rewrite forallb_forall in H. now apply H.
Qed.

(** A well shaped candidate gets through the loop. *)
Lemma candidate_ok_runs (existing : pyset) (pattern : pyval) :
  candidate_ok pattern = true -> runs existing pattern = true.
Proof.
  unfold candidate_ok, runs, uncovered, pattern_key.
  destruct pattern as [| | | | |r]; try discriminate.
  intros H. apply andb_true_iff in H as [Hname Hshape].
  apply dict_has_get in Hname as [name Hname].
  simpl in Hshape. apply andb_true_iff in Hshape as [Htrack Halbum].
  simpl. rewrite Hname. unfold dict_has.
  destruct (dict_get r "track_name") as [spec|].
  - simpl. destruct spec as [| | | | |sp]; try discriminate. simpl in *.
    destruct (dict_get sp "find") as [[| | |s| |]|]; try discriminate. simpl.
    destruct (negb (s =? "")%string); simpl; auto.
    destruct (negb (existsb (py_key_eqb (PStr s)) existing)); reflexivity.
  - simpl. destruct (dict_get r "album_name") as [spec|]; simpl; auto.
    destruct spec as [| | | | |sp]; try discriminate. simpl in *.
    destruct (dict_get sp "find") as [[| | |s| |]|]; try discriminate. simpl.
    destruct (negb (s =? "")%string); simpl; auto.
    destruct (negb (existsb (py_key_eqb (PStr s)) existing)); reflexivity.
Qed.

Lemma candidates_ok_run (existing : pyset) (patterns : list pyval) :
  forallb candidate_ok patterns = true -> forallb (runs existing) patterns = true.
Proof.
  rewrite !forallb_forall. intros H c Hc. now apply candidate_ok_runs, H.
Qed.

(** ** The merge *)

Lemma update_version_and_description_eval (d : list (string * pyval))
    (rules added : list pyval) :
  update_version_and_description
    (PDict (dict_set d "rules" (PList (rules ++ added)))) (Z.of_nat (length added)) =
  match bump_version (version_or_default d) with
  | Ok version => Ok (updated_catalog d rules added version)
  | Raise e => Raise e
  end.
Proof.
  unfold update_version_and_description, version_or_default, updated_catalog.
  simpl. rewrite dict_get_set_other by discriminate.
  destruct (bump_version _); reflexivity.
Qed.

(** The merge of a catalog whose rules are a list that the scan gets
    through, with candidates that the loop gets through. *)
Lemma merge_rules_eval (patterns : list pyval) (d : list (string * pyval))
    (rules : list pyval) (existing : pyset) (w : world) :
  dict_get d "rules" = Some (PList rules) ->
  scan_rules rules [] = Ok existing ->
  forallb (runs existing) patterns = true ->
  let added := filter (appends existing) patterns in
  let w1 := World (rules_file w)
                  (trace w ++ Printed (MsgCount (Z.of_nat (length rules)))
                          :: report_added added) in
  merge_rules patterns (PDict d) w =
    match added with
    | [] => (Ok (PDict d, 0), w1)
    | _ :: _ =>
        match bump_version (version_or_default d) with
        | Ok version =>
            (Ok (updated_catalog d rules added version, Z.of_nat (length added)), w1)
        | Raise e => (Raise e, w1)
        end
    end.
Proof.
  intros Hrules Hscan Hruns added w1. subst added w1.
  unfold merge_rules.
  rewrite (bind_lift _ _ _ _ (getitem_dict _ _ _ Hrules)).
  rewrite (bind_lift _ _ _ (Z.of_nat (length rules)) eq_refl), bind_print.
  rewrite (bind_lift _ _ _ existing Hscan).
  unfold bind at 1. rewrite (add_new_patterns_run _ _ _ _ _ _ Hrules Hruns).
  rewrite (filter_uncovered _ _ Hruns). cbn [rules_file trace].
  rewrite <- app_assoc. cbn [app]. rewrite Z.add_0_l.
  destruct (filter (appends existing) patterns) as [|c added] eqn:Hadded.
  - simpl. rewrite app_nil_r, (dict_set_get_id _ _ _ Hrules). reflexivity.
  - replace (0 <? Z.of_nat (length (c :: added))) with true
      by (symmetry; apply Z.ltb_lt; simpl length; lia).
    unfold bind, lift. rewrite update_version_and_description_eval.
    destruct (bump_version (version_or_default d)); reflexivity.
Qed.

Lemma getitem_ok (v : pyval) (key : string) (x : pyval) :
  py_getitem v key = Ok x -> exists d, v = PDict d /\ dict_get d key = Some x.
Proof.
  destruct v as [| | | | |d]; simpl; try discriminate.
  destruct (dict_get d key) eqn:E; [|discriminate].
  intros [= ->]. eauto.
Qed.

(** What a merge that ends has done, whatever the catalog and the
    candidates: it read the rules of a dict, scanned them, went through
    every candidate, and either appended nothing and left the catalog as it
    was, or appended to a list of rules and set version and description. *)
Lemma merge_rules_inv (patterns : list pyval) (current_rules : pyval) (w : world)
    (current_rules' : pyval) (n : Z) (w' : world) :
  merge_rules patterns current_rules w = (Ok (current_rules', n), w') ->
  exists d rules_v items count,
    current_rules = PDict d /\
    dict_get d "rules" = Some rules_v /\
    py_iter rules_v = Ok items /\
    py_len rules_v = Ok count /\
    let existing := List.rev (track_finds items) in
    let added := filter (appends existing) patterns in
    scan_existing rules_v = Ok existing /\
    forallb (runs existing) patterns = true /\
    n = Z.of_nat (length added) /\
    w' = World (rules_file w)
               (trace w ++ Printed (MsgCount count) :: report_added added) /\
    ((added = [] /\ current_rules' = current_rules) \/
     (added <> [] /\
      exists rules version,
        rules_v = PList rules /\
        bump_version (version_or_default d) = Ok version /\
        current_rules' = updated_catalog d rules added version)).
Proof.
  intros H. pose proof H as H0. unfold merge_rules in H0. run_inv H0.
  rename a into rules_v, a0 into count, a2 into existing, a3 into merged.
  apply getitem_ok in Hstep as (d & -> & Hrules).
  destruct (scan_existing_spec _ _ Hstep2) as (items & Hiter & Hex).
  exists d, rules_v, items, count.
  repeat (split; [assumption || reflexivity|]).
  cbv zeta. rewrite <- Hex. split; [assumption|].
  destruct (add_new_patterns_inv _ _ _ _ _ _ _ Hstep3) as [Hruns Hcase].
  split; [assumption|].
  rewrite <- (filter_uncovered _ _ Hruns).
  destruct Hcase as [Hnone | (d' & rules & [= <-] & Hlist)].
  - rewrite (add_new_patterns_nothing _ _ _ _ _ Hruns Hnone) in Hstep3.
    injection Hstep3 as <- <-. simpl in H0. injection H0 as <- <- <-.
    rewrite Hnone. simpl. repeat split; auto.
  - rewrite Hrules in Hlist. injection Hlist as ->.
    assert (Hscan : scan_rules rules [] = Ok existing) by exact Hstep2.
    rewrite (merge_rules_eval _ _ _ _ _ Hrules Hscan Hruns) in H.
    rewrite (filter_uncovered _ _ Hruns).
    assert (Hcount : count = Z.of_nat (length rules)) by (simpl in Hstep0; congruence).
    destruct (filter (appends existing) patterns) as [|c added] eqn:Hadded.
    + injection H as <- <- <-. rewrite Hcount. repeat split; auto.
    + destruct (bump_version (version_or_default d)) as [version|e]; [|discriminate].
      injection H as <- <- <-. rewrite Hcount.
      repeat split; auto. right. split; [discriminate|]. eauto.
Qed.

Lemma updated_catalog_rules (d : list (string * pyval)) (rules added : list pyval)
    (version : string) :
  py_getitem (updated_catalog d rules added version) "rules"
    = Ok (PList (rules ++ added)).
Proof.
  unfold updated_catalog. simpl.
  rewrite !dict_get_set_other by discriminate.
  now rewrite dict_get_set_same.
Qed.

Lemma updated_catalog_version (d : list (string * pyval)) (rules added : list pyval)
    (version : string) :
  py_getitem (updated_catalog d rules added version) "version" = Ok (PStr version).
Proof.
  unfold updated_catalog. simpl.
  rewrite dict_get_set_other by discriminate.
  now rewrite dict_get_set_same.
Qed.

Lemma updated_catalog_description (d : list (string * pyval))
    (rules added : list pyval) (version : string) :
  py_getitem (updated_catalog d rules added version) "description"
    = Ok (PStr (description_of (Z.of_nat (length added)))).
Proof. unfold updated_catalog. simpl. now rewrite dict_get_set_same. Qed.

Lemma added_count_pos (added : list pyval) :
  added <> [] -> 0 < Z.of_nat (length added).
Proof. destruct added; [congruence | simpl; lia]. Qed.

(** ** Scenario A of the specification *)

Example scenario_a :
  merge_rules Samples.candidates_a Samples.catalog_a (World None [])
    = (Ok (Samples.merged_a, 1), Samples.world_a).
Proof. reflexivity. Qed.

Example scenario_three :
  merge_rules Samples.candidates_a Samples.catalog_three (World None [])
    = (Ok (Samples.merged_three, 1), Samples.world_a).
Proof. reflexivity. Qed.

(** ** The claims *)

(** C3. Append-only prefix preservation. Whatever the catalog and the
    candidates, the rules of the merged catalog are the rules of the
    catalog, each where it was, followed by the appended candidates:
    candidates of the list, unchanged and in the order of the list, as many
    as the merge counts. *)
Theorem rules_append_only (patterns : list pyval) (current_rules : pyval)
    (w : world) (current_rules' : pyval) (n : Z) (w' : world) :
  merge_rules patterns current_rules w = (Ok (current_rules', n), w') ->
  exists (original : pyval) (keep : pyval -> bool),
    let added := filter keep patterns in
    py_getitem current_rules "rules" = Ok original /\
    n = Z.of_nat (length added) /\
    ((added = [] /\ py_getitem current_rules' "rules" = Ok original) \/
     (exists rules,
        original = PList rules /\
        py_getitem current_rules' "rules" = Ok (PList (rules ++ added)))).
Proof.
  intros H.
  apply merge_rules_inv in H
    as (d & rules_v & items & count & -> & Hrules & _ & _ & H).
  cbv zeta in H. destruct H as (_ & _ & Hn & _ & Hcase).
  exists rules_v, (appends (List.rev (track_finds items))). cbv zeta.
  split; [now apply getitem_dict|]. split; [exact Hn|].
  destruct Hcase as [[Hnone ->] | (_ & rules & version & -> & _ & ->)].
  - left. split; [exact Hnone | now apply getitem_dict].
  - right. exists rules. split; [reflexivity | apply updated_catalog_rules].
Qed.

Lemma rules_append_only_witness :
  merge_rules Samples.candidates_a Samples.catalog_a (World None [])
    = (Ok (Samples.merged_a, 1), Samples.world_a) /\
  exists (original : pyval) (keep : pyval -> bool),
    let added := filter keep Samples.candidates_a in
    py_getitem Samples.catalog_a "rules" = Ok original /\
    1 = Z.of_nat (length added) /\
    ((added = [] /\ py_getitem Samples.merged_a "rules" = Ok original) \/
     (exists rules,
        original = PList rules /\
        py_getitem Samples.merged_a "rules" = Ok (PList (rules ++ added)))).
Proof.
  split; [reflexivity|].
  apply (rules_append_only Samples.candidates_a Samples.catalog_a (World None [])
           Samples.merged_a 1 Samples.world_a).
  reflexivity.
Defined.

(** C8. Description update. A merge that added rules has replaced the
    description by the fixed text with the count of added rules in it; a
    merge that added none returns the catalog as it was, version and
    description included. *)
Theorem description_update (patterns : list pyval) (current_rules : pyval)
    (w : world) (current_rules' : pyval) (n : Z) (w' : world) :
  merge_rules patterns current_rules w = (Ok (current_rules', n), w') ->
  0 <= n /\
  (0 < n ->
   py_getitem current_rules' "description" =
     Ok (PStr ("Comprehensive set of rewrite rules to remove remaster information from track and album names, based on analysis of 600+ real Last.fm tracks. Updated with "
               ++ str_of_int n ++ " additional patterns."))) /\
  (n = 0 -> current_rules' = current_rules).
Proof.
  intros H.
  apply merge_rules_inv in H as (d & rules_v & items & count & -> & _ & _ & _ & H).
  cbv zeta in H. destruct H as (_ & _ & -> & _ & Hcase).
  split; [lia|].
  destruct Hcase as [[Hnone ->] | (Hsome & rules & version & -> & _ & ->)].
  - rewrite Hnone. simpl. split; [lia | reflexivity].
  - split.
    + intros _. apply updated_catalog_description.
    + intros Hzero. apply added_count_pos in Hsome. lia.
Qed.

Lemma description_update_witness :
  merge_rules Samples.candidates_a Samples.catalog_a (World None [])
    = (Ok (Samples.merged_a, 1), Samples.world_a) /\
  0 <= 1 /\
  (0 < 1 ->
   py_getitem Samples.merged_a "description" =
     Ok (PStr ("Comprehensive set of rewrite rules to remove remaster information from track and album names, based on analysis of 600+ real Last.fm tracks. Updated with "
               ++ str_of_int 1 ++ " additional patterns."))) /\
  (1 = 0 -> Samples.merged_a = Samples.catalog_a).
Proof.
  split; [reflexivity|].
  apply (description_update Samples.candidates_a Samples.catalog_a (World None [])
           Samples.merged_a 1 Samples.world_a).
  reflexivity.
Defined.

(** C4. Version monotonicity. For a catalog whose version has the two
    dotted parts MAJOR.MINOR, with a MINOR that reads as an integer, the
    version of the merged catalog has the same first part, and a second
    part that reads as the MINOR of the catalog when no rule was added and
    as that MINOR plus one when a rule was added. *)
Theorem version_monotone (patterns : list pyval) (d : list (string * pyval))
    (version major minor : string) (m : Z)
    (w : world) (current_rules' : pyval) (n : Z) (w' : world) :
  dict_get d "version" = Some (PStr version) ->
  split_dot version = [major; minor] ->
  int_of_str minor = Some m ->
  merge_rules patterns (PDict d) w = (Ok (current_rules', n), w') ->
  exists version' minor',
    py_getitem current_rules' "version" = Ok (PStr version') /\
    split_dot version' = [major; minor'] /\
    int_of_str minor' = Some (if 0 <? n then m + 1 else m).
Proof.
  intros Hversion Hsplit Hminor H.
  apply merge_rules_inv in H as (d0 & rules_v & items & count & [= <-] & _ & _ & _ & H).
  cbv zeta in H. destruct H as (_ & _ & -> & _ & Hcase).
  destruct Hcase as [[Hnone ->] | (Hsome & rules & new & _ & Hbump & ->)].
  - rewrite Hnone. exists version, minor.
    split; [now apply getitem_dict | auto].
  - apply added_count_pos, Z.ltb_lt in Hsome. rewrite Hsome.
    unfold version_or_default in Hbump. rewrite Hversion in Hbump.
    destruct (bump_version_parts _ _ _ _ _ Hsplit Hminor) as [Hnew Hparts].
    rewrite Hnew in Hbump. injection Hbump as <-.
    exists (join_dot [major; str_of_int (m + 1)]), (str_of_int (m + 1)).
    split; [apply updated_catalog_version|].
    split; [exact Hparts | apply int_of_str_of_int].
Qed.

Lemma version_monotone_witness :
  (dict_get [("version", PStr "1.2"); ("rules", PList [Samples.remastered])] "version"
     = Some (PStr "1.2") /\
   split_dot "1.2" = ["1"; "2"] /\
   int_of_str "2" = Some 2 /\
   merge_rules Samples.candidates_a Samples.catalog_a (World None [])
     = (Ok (Samples.merged_a, 1), Samples.world_a)) /\
  exists version' minor',
    py_getitem Samples.merged_a "version" = Ok (PStr version') /\
    split_dot version' = ["1"; minor'] /\
    int_of_str minor' = Some (if 0 <? 1 then 2 + 1 else 2).
Proof.
  split; [repeat split|].
  apply (version_monotone Samples.candidates_a
           [("version", PStr "1.2"); ("rules", PList [Samples.remastered])]
           "1.2" "1" "2" 2 (World None []) Samples.merged_a 1 Samples.world_a);
    reflexivity.
Defined.

(** C10. Versions with more than two parts. When a rule was added, only
    the second part of the version is replaced, by its value plus one; the
    first part and every part after the second are kept as they are. *)
Theorem bump_keeps_later_parts (patterns : list pyval) (d : list (string * pyval))
    (version major minor third : string) (rest : list string) (m : Z)
    (w : world) (current_rules' : pyval) (n : Z) (w' : world) :
  dict_get d "version" = Some (PStr version) ->
  split_dot version = major :: minor :: third :: rest ->
  int_of_str minor = Some m ->
  merge_rules patterns (PDict d) w = (Ok (current_rules', n), w') ->
  0 < n ->
  exists version',
    py_getitem current_rules' "version" = Ok (PStr version') /\
    version' = join_dot (major :: str_of_int (m + 1) :: third :: rest) /\
    split_dot version' = major :: str_of_int (m + 1) :: third :: rest.
Proof.
  intros Hversion Hsplit Hminor H Hpos.
  apply merge_rules_inv in H as (d0 & rules_v & items & count & [= <-] & _ & _ & _ & H).
  cbv zeta in H. destruct H as (_ & _ & -> & _ & Hcase).
  destruct Hcase as [[Hnone ->] | (Hsome & rules & new & _ & Hbump & ->)].
  - rewrite Hnone in Hpos. simpl in Hpos. lia.
  - unfold version_or_default in Hbump. rewrite Hversion in Hbump.
    destruct (bump_version_parts _ _ _ _ _ Hsplit Hminor) as [Hnew Hparts].
    rewrite Hnew in Hbump. injection Hbump as <-.
    eexists. split; [apply updated_catalog_version|]. split; [reflexivity | exact Hparts].
Qed.

Lemma bump_keeps_later_parts_witness :
  (dict_get [("version", PStr "1.2.3"); ("rules", PList [Samples.remastered])] "version"
     = Some (PStr "1.2.3") /\
   split_dot "1.2.3" = ["1"; "2"; "3"] /\
   int_of_str "2" = Some 2 /\
   merge_rules Samples.candidates_a Samples.catalog_three (World None [])
     = (Ok (Samples.merged_three, 1), Samples.world_a) /\
   0 < 1) /\
  exists version',
    py_getitem Samples.merged_three "version" = Ok (PStr version') /\
    version' = join_dot ["1"; str_of_int (2 + 1); "3"] /\
    split_dot version' = ["1"; str_of_int (2 + 1); "3"].
Proof.
  split; [repeat split|].
  apply (bump_keeps_later_parts Samples.candidates_a
           [("version", PStr "1.2.3"); ("rules", PList [Samples.remastered])]
           "1.2.3" "1" "2" "3" [] 2 (World None []) Samples.merged_three 1
           Samples.world_a);
    reflexivity.
Defined.

(** C9. A falsy catalog. When the document that loads is falsy (None,
    false, 0, an empty string, list or dict), the run returns at once:
    nothing is scanned or appended, nothing is printed, nothing is written
    and the rules file is as it was. When there is no rules file, the run
    reports it and does nothing else. *)
Theorem falsy_catalog_aborts (patterns : list pyval) (log : list event) :
  (forall doc : pyval,
     py_truthy doc = false ->
     analyze_and_update patterns (World (Some doc) log)
       = (Ok tt, World (Some doc) log)) /\
  analyze_and_update patterns (World None log)
    = (Ok tt, World None (log ++ [Printed MsgNotFound])).
Proof.
  split; [|reflexivity].
  intros doc Hfalsy. unfold analyze_and_update, bind, load_current_rules.
  simpl. now rewrite Hfalsy.
Qed.

Lemma falsy_catalog_aborts_witness :
  py_truthy (PDict []) = false /\
  analyze_and_update additional_patterns (World (Some (PDict [])) [])
    = (Ok tt, World (Some (PDict [])) []).
Proof.
  split; [reflexivity|].
  apply (proj1 (falsy_catalog_aborts additional_patterns [])).
  reflexivity.
Defined.

(** ** Well shaped catalogs *)

Lemma rule_ok_track_find (rule : pyval) :
  rule_ok rule = true ->
  track_find rule = Ok (rule_track_find rule) /\
  (forall find, rule_track_find rule = Some find -> py_hashable find = true).
Proof.
  unfold rule_ok, track_find, rule_track_find.
  destruct rule as [| | | | |r]; try discriminate.
  intros H. apply andb_true_iff in H as [Htrack _].
  simpl. unfold dict_has.
  destruct (dict_get r "track_name") as [spec|]; simpl.
  - destruct spec as [| | | | |sp]; try discriminate. simpl in *.
    unfold dict_has.
    destruct (dict_get sp "find") as [[| | |s| |]|]; try discriminate.
    simpl. split; [reflexivity|]. now intros find [= <-].
  - split; [reflexivity | discriminate].
Qed.

(** The scan gets through a list of well shaped rules. *)
Lemma scan_rules_run (rules : list pyval) :
  forall acc : pyset,
    forallb rule_ok rules = true ->
    scan_rules rules acc = Ok (List.rev (track_finds rules) ++ acc).
Proof.
  induction rules as [|rule rest IH]; intros acc H; simpl in *; [reflexivity|].
  apply andb_true_iff in H as [Hrule Hrest].
  destruct (rule_ok_track_find _ Hrule) as [Hfind Hhash].
  rewrite Hfind. simpl.
  destruct (rule_track_find rule) as [find|]; simpl.
  - unfold set_add. rewrite (Hhash find eq_refl). simpl.
    rewrite (IH _ Hrest). now rewrite <- app_assoc.
  - now apply IH.
Qed.

Lemma in_keys_refl (existing : pyset) (s : string) :
  In (PStr s) existing -> in_keys existing (PStr s) = true.
Proof.
  intros H. unfold in_keys. apply existsb_exists.
  exists (PStr s). split; [exact H | apply String.eqb_refl].
Qed.

Lemma in_track_finds (rules : list pyval) (key : pyval) :
  In key (track_finds rules) <->
  exists rule, In rule rules /\ rule_track_find rule = Some key.
Proof.
  unfold track_finds. rewrite in_flat_map. split.
  - intros (rule & Hin & Hkey). exists rule. split; [exact Hin|].
    destruct (rule_track_find rule) as [find|]; simpl in Hkey; [|contradiction].
    destruct Hkey as [-> | []]. reflexivity.
  - intros (rule & Hin & Hkey). exists rule. split; [exact Hin|].
    rewrite Hkey. now left.
Qed.

(** C5. Deduplication keyed on [track_name.find] only. The existing-key
    set of a merge holds exactly the [find] values of the rules of the
    catalog that have a [track_name] pattern spec; a rule without one, so
    an [album_name] rule, adds nothing to it. No candidate whose key,
    taken from its [track_name] or else from its [album_name], is in that
    set is appended; in particular no candidate whose [track_name.find] is
    the [track_name.find] of a rule of the catalog. *)
Theorem dedup_by_track_find (patterns : list pyval) (current_rules : pyval)
    (w : world) (current_rules' : pyval) (n : Z) (w' : world) :
  merge_rules patterns current_rules w = (Ok (current_rules', n), w') ->
  exists (original : pyval) (items existing added : list pyval),
    py_getitem current_rules "rules" = Ok original /\
    py_iter original = Ok items /\
    scan_existing original = Ok existing /\
    (forall key, In key existing <->
                 exists rule, In rule items /\ rule_track_find rule = Some key) /\
    (forall r, In (PDict r) items -> dict_get r "track_name" = None ->
               track_find (PDict r) = Ok None) /\
    n = Z.of_nat (length added) /\
    ((added = [] /\ py_getitem current_rules' "rules" = Ok original) \/
     (exists rules,
        original = PList rules /\
        py_getitem current_rules' "rules" = Ok (PList (rules ++ added)))) /\
    (forall pattern key,
       In pattern patterns -> identity_key pattern = Some key ->
       in_keys existing key = true -> ~ In pattern added) /\
    (forall pattern rule find,
       In pattern patterns -> In rule items ->
       rule_track_find pattern = Some (PStr find) ->
       rule_track_find rule = Some (PStr find) ->
       ~ In pattern added).
Proof.
  intros H.
  apply merge_rules_inv in H
    as (d & rules_v & items & count & -> & Hrules & Hiter & _ & H).
  cbv zeta in H. destruct H as (Hscan & _ & Hn & _ & Hcase).
  set (existing := List.rev (track_finds items)) in *.
  assert (Hskip : forall pattern key,
             identity_key pattern = Some key -> in_keys existing key = true ->
             ~ In pattern (filter (appends existing) patterns)).
  { intros pattern key Hkey Hin Hadded.
    apply filter_In in Hadded as [_ Happ].
    unfold appends, skips in Happ. rewrite Hkey, Hin in Happ.
    now rewrite orb_true_r in Happ. }
  exists rules_v, items, existing, (filter (appends existing) patterns).
  split; [now apply getitem_dict|].
  split; [exact Hiter|]. split; [exact Hscan|].
  split.
  { intros key. unfold existing. rewrite <- in_rev. apply in_track_finds. }
  split.
  { intros r _ Hnone. unfold track_find. simpl. unfold dict_has.
    now rewrite Hnone. }
  split; [exact Hn|].
  split.
  { destruct Hcase as [[Hnone ->] | (_ & rules & version & -> & _ & ->)].
    - left. split; [exact Hnone | now apply getitem_dict].
    - right. exists rules. split; [reflexivity | apply updated_catalog_rules]. }
  split.
  { intros pattern key _. apply Hskip. }
  intros pattern rule find _ Hrule Hpattern Hfound.
  apply (Hskip pattern (PStr find)).
  - unfold rule_track_find in Hpattern. unfold identity_key.
    destruct pattern as [| | | | |r]; try discriminate.
    destruct (dict_get r "track_name"); [exact Hpattern | discriminate].
  - apply in_keys_refl. unfold existing. rewrite <- in_rev.
    apply in_track_finds. eauto.
Qed.

Lemma dedup_by_track_find_witness :
  merge_rules Samples.candidates_a Samples.catalog_a (World None [])
    = (Ok (Samples.merged_a, 1), Samples.world_a) /\
  exists (original : pyval) (items existing added : list pyval),
    py_getitem Samples.catalog_a "rules" = Ok original /\
    py_iter original = Ok items /\
    scan_existing original = Ok existing /\
    (forall key, In key existing <->
                 exists rule, In rule items /\ rule_track_find rule = Some key) /\
    (forall r, In (PDict r) items -> dict_get r "track_name" = None ->
               track_find (PDict r) = Ok None) /\
    1 = Z.of_nat (length added) /\
    ((added = [] /\ py_getitem Samples.merged_a "rules" = Ok original) \/
     (exists rules,
        original = PList rules /\
        py_getitem Samples.merged_a "rules" = Ok (PList (rules ++ added)))) /\
    (forall pattern key,
       In pattern Samples.candidates_a -> identity_key pattern = Some key ->
       in_keys existing key = true -> ~ In pattern added) /\
    (forall pattern rule find,
       In pattern Samples.candidates_a -> In rule items ->
       rule_track_find pattern = Some (PStr find) ->
       rule_track_find rule = Some (PStr find) ->
       ~ In pattern added).
Proof.
  split; [reflexivity|].
  apply (dedup_by_track_find Samples.candidates_a Samples.catalog_a (World None [])
           Samples.merged_a 1 Samples.world_a).
  reflexivity.
Defined.

(** ** Candidates with an empty key, and catalogs without a version *)

Lemma filter_two (keep : pyval -> bool) (before between after : list pyval)
    (c1 c2 : pyval) :
  keep c1 = true -> keep c2 = true ->
  filter keep (before ++ c1 :: between ++ c2 :: after) =
    filter keep before ++ c1 :: filter keep between ++ c2 :: filter keep after.
Proof.
  intros H1 H2. rewrite filter_app. simpl. rewrite H1, filter_app. simpl.
  now rewrite H2.
Qed.

Lemma appends_new_key (existing : pyset) (pattern key : pyval) :
  identity_key pattern = Some key -> py_truthy key = true ->
  in_keys existing key = false -> appends existing pattern = true.
Proof.
  intros Hkey Htruthy Hnew. unfold appends, skips.
  now rewrite Hkey, Htruthy, Hnew.
Qed.

Lemma report_added_not_written (added : list pyval) :
  existsb is_written (report_added added) = false.
Proof. induction added; simpl; auto. Qed.

(** C7, as the code has it. The loop goes through well shaped candidates
    in the order of the list and skips a candidate exactly when its
    identity key is absent (the candidate has neither pattern spec), or is
    empty, or is in the existing-key set; every other candidate is appended
    as it is, counted and reported by name. *)
Theorem candidate_skip_rule (existing : pyset) (patterns : list pyval)
    (d : list (string * pyval)) (rules : list pyval) (n : Z) (w : world) :
  dict_get d "rules" = Some (PList rules) ->
  forallb candidate_ok patterns = true ->
  let added := filter (fun pattern => negb (skips existing pattern)) patterns in
  add_new_patterns existing patterns (PDict d) n w =
    (Ok (PDict (dict_set d "rules" (PList (rules ++ added))),
         n + Z.of_nat (length added)),
     World (rules_file w) (trace w ++ report_added added)) /\
  (forall pattern,
     In pattern added <-> In pattern patterns /\ skips existing pattern = false).
Proof.
  intros Hrules Hok added. subst added.
  pose proof (candidates_ok_run existing _ Hok) as Hruns.
  split.
  - rewrite (add_new_patterns_run _ _ _ _ _ _ Hrules Hruns).
    now rewrite (filter_uncovered _ _ Hruns).
  - intros pattern. rewrite filter_In, negb_true_iff. reflexivity.
Qed.

Lemma candidate_skip_rule_witness :
  (dict_get [("version", PStr "1.2"); ("rules", PList [Samples.remastered])] "rules"
     = Some (PList [Samples.remastered]) /\
   forallb candidate_ok
     [Samples.empty_key_a; Samples.no_pattern; Samples.hd_remastered; Samples.live_b]
     = true) /\
  let existing := [PStr "^(.+) - Remastered$"] in
  let patterns :=
    [Samples.empty_key_a; Samples.no_pattern; Samples.hd_remastered; Samples.live_b] in
  let added := filter (fun pattern => negb (skips existing pattern)) patterns in
  add_new_patterns existing patterns Samples.catalog_a 0 (World None []) =
    (Ok (PDict (dict_set [("version", PStr "1.2"); ("rules", PList [Samples.remastered])]
                  "rules" (PList ([Samples.remastered] ++ added))),
         0 + Z.of_nat (length added)),
     World None ([] ++ report_added added)) /\
  (forall pattern,
     In pattern added <-> In pattern patterns /\ skips existing pattern = false).
Proof.
  split; [split; reflexivity|].
  apply (candidate_skip_rule [PStr "^(.+) - Remastered$"]
           [Samples.empty_key_a; Samples.no_pattern; Samples.hd_remastered; Samples.live_b]
           [("version", PStr "1.2"); ("rules", PList [Samples.remastered])]
           [Samples.remastered] 0 (World None []));
    reflexivity.
Defined.

(** C7 as it is worded fails on a candidate whose [find] is the empty
    string: the key is there and is not in the existing-key set, so the
    worded rule does not skip the candidate; the loop does. *)
Lemma candidate_skip_rule_counterexample :
  identity_key Samples.empty_key_a = Some (PStr "") /\
  in_keys [] (PStr "") = false /\
  claimed_skip [] Samples.empty_key_a = false /\
  add_new_patterns [] [Samples.empty_key_a] Samples.empty_catalog 0 (World None [])
    = (Ok (Samples.empty_catalog, 0), World None []).
Proof. repeat split. Qed.

(** C6, as the code has it. Two candidates of one batch that share a key
    that is not empty and is not in the existing-key set are both appended
    and both counted: next to what the other candidates add, the pair adds
    two. *)
Theorem batch_duplicates_both_added (before between after : list pyval)
    (c1 c2 key : pyval) (d : list (string * pyval)) (rules : list pyval)
    (version : string) (w : world) :
  let patterns := before ++ c1 :: between ++ c2 :: after in
  let existing := List.rev (track_finds rules) in
  let keep := appends existing in
  let added := filter keep before ++ c1 :: filter keep between ++ c2 :: filter keep after in
  dict_get d "rules" = Some (PList rules) ->
  forallb rule_ok rules = true ->
  bump_version (version_or_default d) = Ok version ->
  forallb candidate_ok patterns = true ->
  identity_key c1 = Some key ->
  identity_key c2 = Some key ->
  py_truthy key = true ->
  in_keys existing key = false ->
  exists w',
    merge_rules patterns (PDict d) w =
      (Ok (updated_catalog d rules added version,
           Z.of_nat (length (filter keep before) + length (filter keep between)
                     + length (filter keep after)) + 2),
       w').
Proof.
  intros patterns existing keep added Hrules Hshape Hbump Hok Hk1 Hk2 Htruthy Hnew.
  pose proof (scan_rules_run rules [] Hshape) as Hscan. rewrite app_nil_r in Hscan.
  pose proof (candidates_ok_run existing _ Hok) as Hruns.
  pose proof (merge_rules_eval patterns d rules existing w Hrules Hscan Hruns) as Hrun.
  cbv zeta in Hrun.
  assert (Hadded : filter (appends existing) patterns = added).
  { apply filter_two; eapply appends_new_key; eassumption. }
  rewrite Hadded, Hbump in Hrun.
  assert (Hlen : Z.of_nat (length added) =
                 Z.of_nat (length (filter keep before) + length (filter keep between)
                           + length (filter keep after)) + 2).
  { unfold added. rewrite length_app. simpl. rewrite length_app. simpl. lia. }
  assert (Hsome : added <> []).
  { unfold added. destruct (filter keep before); discriminate. }
  rewrite <- Hlen. clearbody added.
  destruct added as [|c added']; [congruence|]. eauto.
Qed.

Lemma batch_duplicates_both_added_witness :
  (dict_get Samples.entries_a "rules" = Some (PList [Samples.remastered]) /\
   forallb rule_ok [Samples.remastered] = true /\
   bump_version (version_or_default Samples.entries_a) = Ok "1.3" /\
   forallb candidate_ok
     ([] ++ Samples.live_a :: [Samples.no_pattern] ++ Samples.live_b :: []) = true /\
   identity_key Samples.live_a = Some (PStr "^(.+?) - Live$") /\
   identity_key Samples.live_b = Some (PStr "^(.+?) - Live$") /\
   py_truthy (PStr "^(.+?) - Live$") = true /\
   in_keys (List.rev (track_finds [Samples.remastered])) (PStr "^(.+?) - Live$") = false) /\
  exists w',
    merge_rules ([] ++ Samples.live_a :: [Samples.no_pattern] ++ Samples.live_b :: [])
                (PDict Samples.entries_a) (World None []) =
      (Ok (updated_catalog Samples.entries_a [Samples.remastered]
             ([] ++ Samples.live_a :: [] ++ Samples.live_b :: []) "1.3",
           Z.of_nat (0 + 0 + 0) + 2),
       w').
Proof.
  split; [repeat split|].
  apply (batch_duplicates_both_added [] [Samples.no_pattern] [] Samples.live_a
           Samples.live_b (PStr "^(.+?) - Live$") Samples.entries_a
           [Samples.remastered] "1.3" (World None []));
    reflexivity.
Defined.

(** C6 as it is worded fails on two candidates that share the empty
    string as their [find]: the key is in no existing-key set, and neither
    candidate is appended. *)
Lemma batch_duplicates_counterexample :
  Samples.empty_key_a <> Samples.empty_key_b /\
  identity_key Samples.empty_key_a = Some (PStr "") /\
  identity_key Samples.empty_key_b = Some (PStr "") /\
  scan_existing (PList []) = Ok [] /\
  in_keys [] (PStr "") = false /\
  merge_rules [Samples.empty_key_a; Samples.empty_key_b] Samples.empty_catalog
              (World None [])
    = (Ok (Samples.empty_catalog, 0), World None [Printed (MsgCount 0)]).
Proof. repeat split. discriminate. Qed.

(** C2 as it is worded fails on a catalog without a version: the run
    takes "1.0" for it and saves the catalog with version "1.1". It fails
    as well on a version whose first part is no integer: only the second
    part is read. *)
Lemma malformed_version_counterexample :
  (dict_get Samples.entries_no_version "version" = None /\
   exists saved log,
     analyze_and_update [Samples.hd_remastered]
         (World (Some (PDict Samples.entries_no_version)) [])
       = (Ok tt, World (Some saved) log) /\
     py_getitem saved "version" = Ok (PStr "1.1") /\
     In (Written saved) log) /\
  (int_of_str "x" = None /\
   exists saved log,
     analyze_and_update [Samples.hd_remastered]
         (World (Some (PDict Samples.entries_named_major)) [])
       = (Ok tt, World (Some saved) log) /\
     py_getitem saved "version" = Ok (PStr "x.6") /\
     In (Written saved) log).
Proof.
  split.
  - split; [reflexivity|]. do 2 eexists.
    split; [reflexivity|]. split; [reflexivity|].
    do 2 right. left. reflexivity.
  - split; [reflexivity|]. do 2 eexists.
    split; [reflexivity|]. split; [reflexivity|].
    do 2 right. left. reflexivity.
Qed.

(** ** Running the script twice *)

(** One [album_name] candidate is enough: the second merge appends it
    again. *)
Example rerun_album_rule :
  merge_rules [Samples.album_rule] Samples.empty_catalog (World None [])
    = (Ok (Samples.album_once, 1),
       World None [Printed (MsgCount 0);
                   Printed (MsgAdded (PStr "Remove Deluxe Remaster Album"))]) /\
  merge_rules [Samples.album_rule] Samples.album_once (World None [])
    = (Ok (Samples.album_twice, 1),
       World None [Printed (MsgCount 1);
                   Printed (MsgAdded (PStr "Remove Deluxe Remaster Album"))]).
Proof. split; reflexivity. Qed.

Ltac find_event := simpl; repeat (first [left; reflexivity | right]).

(** C1 on the candidates of the script. The first run on a catalog
    without rules appends the twelve candidates and saves version "1.1".
    The second run, on what the first saved, finds the three [album_name]
    candidates new again, since the scan collects the [find] of
    [track_name] pattern specs only: it appends them a second time and
    saves version "1.2" with fifteen rules. *)
Lemma rerun_appends_album_rules_again :
  exists once twice log1 log2,
    analyze_and_update additional_patterns (World (Some Samples.empty_catalog) [])
      = (Ok tt, World (Some once) log1) /\
    analyze_and_update additional_patterns (World (Some once) [])
      = (Ok tt, World (Some twice) log2) /\
    py_getitem once "version" = Ok (PStr "1.1") /\
    py_getitem twice "version" = Ok (PStr "1.2") /\
    In (Printed (MsgSummary 12 (PStr "1.1"))) log1 /\
    In (Printed (MsgTotal 12)) log1 /\
    In (Printed (MsgSummary 3 (PStr "1.2"))) log2 /\
    In (Printed (MsgTotal 15)) log2.
Proof.
  do 4 eexists.
  split; [vm_compute; reflexivity|].
  split; [vm_compute; reflexivity|].
  split; [reflexivity|]. split; [reflexivity|].
  repeat split; find_event.
Qed.

Lemma candidate_ok_rule_ok (pattern : pyval) :
  candidate_ok pattern = true -> rule_ok pattern = true.
Proof.
  unfold candidate_ok. destruct pattern; try discriminate.
  intros H. now apply andb_true_iff in H as [_ H].
Qed.

Lemma candidate_ok_key (pattern key : pyval) :
  candidate_ok pattern = true -> identity_key pattern = Some key ->
  exists s, key = PStr s.
Proof.
  intros Hok. apply candidate_ok_rule_ok in Hok. revert Hok.
  unfold rule_ok, identity_key. destruct pattern as [| | | | |r]; try discriminate.
  intros H. apply andb_true_iff in H as [Htrack Halbum].
  destruct (dict_get r "track_name") as [spec|].
  - destruct spec as [| | | | |sp]; try discriminate. simpl in *.
    destruct (dict_get sp "find") as [[| | |s| |]|]; try discriminate.
    intros [= <-]. eauto.
  - destruct (dict_get r "album_name") as [spec|]; [|discriminate].
    destruct spec as [| | | | |sp]; try discriminate. simpl in *.
    destruct (dict_get sp "find") as [[| | |s| |]|]; try discriminate.
    intros [= <-]. eauto.
Qed.

Lemma track_candidate_key (pattern : pyval) :
  track_candidate pattern = true ->
  candidate_ok pattern = true /\ identity_key pattern = rule_track_find pattern.
Proof.
  unfold track_candidate. intros H. apply andb_true_iff in H as [Hok Htrack].
  split; [exact Hok|].
  destruct pattern as [| | | | |r]; try discriminate.
  unfold identity_key, rule_track_find, dict_has in *.
  destruct (dict_get r "track_name"); [reflexivity|].
  destruct (dict_get r "album_name"); [discriminate | reflexivity].
Qed.

Lemma in_keys_grows (existing existing' : pyset) (key : pyval) :
  (forall k, In k existing -> In k existing') ->
  in_keys existing key = true -> in_keys existing' key = true.
Proof.
  unfold in_keys. rewrite !existsb_exists.
  intros Hsub (k & Hin & Heq). eauto.
Qed.

Lemma track_finds_app (rules added : list pyval) :
  track_finds (rules ++ added) = track_finds rules ++ track_finds added.
Proof. unfold track_finds. apply flat_map_app. Qed.

Lemma filter_none {A : Type} (keep : A -> bool) (l : list A) :
  (forall x, In x l -> keep x = false) -> filter keep l = [].
Proof.
  induction l as [|x rest IH]; intros H; [reflexivity|].
  simpl. rewrite (H x (or_introl eq_refl)). apply IH.
  intros y Hy. apply H. now right.
Qed.

(** After the merge, no candidate whose key comes from a [track_name] is
    new any more. *)
Lemma track_candidates_covered (rules patterns : list pyval) :
  forallb track_candidate patterns = true ->
  let existing := List.rev (track_finds rules) in
  let added := filter (appends existing) patterns in
  filter (appends (List.rev (track_finds (rules ++ added)))) patterns = [].
Proof.
  intros Hok existing added.
  set (existing' := List.rev (track_finds (rules ++ added))).
  assert (Hsub : forall k, In k existing -> In k existing').
  { intros k. unfold existing, existing'. rewrite <- !in_rev, track_finds_app, in_app_iff.
    auto. }
  assert (Hall : forall c, In c patterns -> appends existing' c = false).
  { intros c Hin. rewrite forallb_forall in Hok.
    destruct (track_candidate_key _ (Hok c Hin)) as [Hcand Hkey].
    unfold appends at 1, skips. apply negb_false_iff.
    destruct (identity_key c) as [key|] eqn:Hid; [|reflexivity].
    destruct (candidate_ok_key _ _ Hcand Hid) as [s ->].
    destruct (py_truthy (PStr s)) eqn:Htruthy; [|reflexivity]. simpl.
    destruct (in_keys existing (PStr s)) eqn:Hknown.
    - now apply (in_keys_grows existing).
    - apply in_keys_refl. unfold existing'.
      rewrite <- in_rev, track_finds_app, in_app_iff. right.
      apply in_track_finds. exists c. split; [|congruence].
      apply filter_In. split; [exact Hin|].
      now apply appends_new_key with (key := PStr s). }
  now apply filter_none.
Qed.

Lemma updated_catalog_entries (d : list (string * pyval)) (rules added : list pyval)
    (version : string) :
  exists d',
    updated_catalog d rules added version = PDict d' /\
    dict_get d' "rules" = Some (PList (rules ++ added)).
Proof.
  eexists. split; [reflexivity|].
  rewrite !dict_get_set_other by discriminate. apply dict_get_set_same.
Qed.

(** A second merge of the same candidates into the merged catalog adds
    nothing and leaves the catalog as it is, as long as no candidate takes
    its key from an [album_name]. *)
Lemma rerun_track_candidates (patterns : list pyval) (d : list (string * pyval))
    (rules : list pyval) (w w1 : world) (once : pyval) (n : Z) :
  dict_get d "rules" = Some (PList rules) ->
  forallb rule_ok rules = true ->
  forallb track_candidate patterns = true ->
  merge_rules patterns (PDict d) w = (Ok (once, n), w1) ->
  exists w2, merge_rules patterns once w1 = (Ok (once, 0), w2).
Proof.
  intros Hrules Hshape Htrack Hfirst.
  assert (Hok : forallb candidate_ok patterns = true).
  { rewrite forallb_forall in *. intros c Hc.
    now apply track_candidate_key, Htrack. }
  pose proof (track_candidates_covered rules patterns Htrack) as Hcovered.
  cbv zeta in Hcovered.
  pose proof (scan_rules_run rules [] Hshape) as Hscan. rewrite app_nil_r in Hscan.
  rewrite (merge_rules_eval _ _ _ _ w Hrules Hscan (candidates_ok_run _ _ Hok))
    in Hfirst.
  remember (filter (appends (List.rev (track_finds rules))) patterns) as added
    eqn:Hadded.
  assert (Hshape' : forallb rule_ok (rules ++ added) = true).
  { rewrite forallb_app, Hshape. simpl. apply forallb_forall.
    intros c Hc. rewrite Hadded in Hc. apply filter_In in Hc as [Hc _].
    rewrite forallb_forall in Hok. now apply candidate_ok_rule_ok, Hok. }
  pose proof (scan_rules_run _ [] Hshape') as Hscan'. rewrite app_nil_r in Hscan'.
  destruct added as [|c added'].
  - injection Hfirst as <- <- <-. rewrite app_nil_r in Hcovered.
    rewrite (merge_rules_eval _ _ _ _ _ Hrules Hscan (candidates_ok_run _ _ Hok)).
    rewrite Hcovered. eauto.
  - destruct (bump_version (version_or_default d)) as [version|e]; [|discriminate].
    injection Hfirst as <- <- <-.
    destruct (updated_catalog_entries d rules (c :: added') version)
      as (d' & -> & Hrules').
    rewrite (merge_rules_eval _ _ _ _ _ Hrules' Hscan' (candidates_ok_run _ _ Hok)).
    rewrite Hcovered. eauto.
Qed.

(** * More of the script *)

(** ** What a run leaves behind *)

Lemma writes_app (l1 l2 : list event) : writes (l1 ++ l2) = writes l1 ++ writes l2.
Proof. unfold writes. apply flat_map_app. Qed.

Lemma writes_report_added (added : list pyval) : writes (report_added added) = [].
Proof. induction added; simpl; auto. Qed.

(** The loop prints and does nothing else to the world, however it ends. *)
Lemma add_new_patterns_frame (existing : pyset) (patterns : list pyval) :
  forall (current_rules : pyval) (n : Z) (w : world)
         (r : result (pyval * Z)) (w' : world),
    add_new_patterns existing patterns current_rules n w = (r, w') ->
    rules_file w' = rules_file w /\
    exists events, trace w' = trace w ++ events /\ writes events = [].
Proof.
  induction patterns as [|pattern rest IH]; intros cur n w r w' H.
  - injection H as <- <-. split; [reflexivity|].
    exists []. now rewrite app_nil_r.
  - cbn [add_new_patterns] in H. unfold bind at 1, lift at 1 in H.
    assert (Hstop : forall e, (Raise e, w) = (r, w') ->
              rules_file w' = rules_file w /\
              exists events, trace w' = trace w ++ events /\ writes events = []).
    { intros e [= <- <-]. split; [reflexivity|]. exists []. now rewrite app_nil_r. }
    destruct (uncovered existing pattern) as [[|]|e]; [| eauto | eauto].
    unfold bind at 1, lift at 1 in H.
    destruct (py_getitem cur "rules") as [rules|e]; [|eauto].
    unfold bind at 1, lift at 1 in H.
    destruct (py_append rules pattern) as [rules'|e]; [|eauto].
    unfold bind at 1, lift at 1 in H.
    destruct (py_setitem cur "rules" rules') as [cur'|e]; [|eauto].
    unfold bind at 1, lift at 1 in H.
    destruct (py_getitem pattern "name") as [name|e]; [|eauto].
    rewrite bind_print in H.
    apply IH in H as (Hfile & events & Htrace & Hwrites). cbn in Hfile, Htrace.
    split; [exact Hfile|].
    exists (Printed (MsgAdded name) :: events).
    split; [now rewrite Htrace, <- app_assoc | exact Hwrites].
Qed.

(** So does the merge. *)
Lemma merge_rules_frame (patterns : list pyval) (current_rules : pyval) (w : world)
    (r : result (pyval * Z)) (w' : world) :
  merge_rules patterns current_rules w = (r, w') ->
  rules_file w' = rules_file w /\
  exists events, trace w' = trace w ++ events /\ writes events = [].
Proof.
  unfold merge_rules. intros H.
  assert (Hstop : forall e, (Raise e, w) = (r, w') ->
            rules_file w' = rules_file w /\
            exists events, trace w' = trace w ++ events /\ writes events = []).
  { intros e [= <- <-]. split; [reflexivity|]. exists []. now rewrite app_nil_r. }
  unfold bind at 1, lift at 1 in H.
  destruct (py_getitem current_rules "rules") as [rules|e]; [|eauto].
  unfold bind at 1, lift at 1 in H.
  destruct (py_len rules) as [count|e]; [|eauto].
  rewrite bind_print in H.
  unfold bind at 1, lift at 1 in H.
  destruct (scan_existing rules) as [existing|e].
  2:{ injection H as <- <-. split; [reflexivity|].
      exists [Printed (MsgCount count)]. split; reflexivity. }
  unfold bind at 1 in H.
  destruct (add_new_patterns existing patterns current_rules 0 _)
    as [[[cur' n]|e] w1] eqn:Hloop;
    apply add_new_patterns_frame in Hloop as (Hfile & events & Htrace & Hwrites);
    cbn in Hfile, Htrace.
  - assert (Hw1 : rules_file w1 = rules_file w /\
                  exists events, trace w1 = trace w ++ events /\ writes events = []).
    { split; [exact Hfile|]. exists (Printed (MsgCount count) :: events).
      split; [now rewrite Htrace, <- app_assoc | exact Hwrites]. }
    destruct (0 <? n).
    + unfold bind, lift, ret in H.
      destruct (update_version_and_description cur' n);
        injection H as <- <-; exact Hw1.
    + injection H as <- <-. exact Hw1.
  - injection H as <- <-. split; [exact Hfile|].
    exists (Printed (MsgCount count) :: events).
    split; [now rewrite Htrace, <- app_assoc | exact Hwrites].
Qed.

(** The run after the load, by what the merge gives. *)
Lemma analyze_and_update_eval (patterns : list pyval) (doc : pyval) (log : list event) :
  py_truthy doc = true ->
  analyze_and_update patterns (World (Some doc) log) =
    match merge_rules patterns doc (World (Some doc) log) with
    | (Ok (merged, n), w1) =>
        if 0 <? n then
          match py_getitem merged "version", py_getitem merged "rules" with
          | Ok version, Ok rules =>
              match py_len rules with
              | Ok total =>
                  (Ok tt, World (Some merged)
                                (trace w1 ++ save_report merged n version total))
              | Raise e =>
                  (Raise e, World (Some merged)
                                  (trace w1 ++ [Written merged; Printed MsgSaved;
                                                Printed (MsgSummary n version)]))
              end
          | Ok version, Raise e =>
              (Raise e, World (Some merged)
                              (trace w1 ++ [Written merged; Printed MsgSaved;
                                            Printed (MsgSummary n version)]))
          | Raise e, _ =>
              (Raise e, World (Some merged)
                              (trace w1 ++ [Written merged; Printed MsgSaved]))
          end
        else (Ok tt, World (rules_file w1) (trace w1 ++ [Printed MsgNoNew]))
    | (Raise e, w1) => (Raise e, w1)
    end.
Proof.
  intros Htruthy. unfold analyze_and_update, load_current_rules.
  unfold bind at 1. cbn [rules_file]. rewrite Htruthy. cbn [negb].
  unfold bind at 1.
  destruct (merge_rules patterns doc (World (Some doc) log)) as [[[merged n]|e] w1];
    [|reflexivity].
  destruct (0 <? n); [|reflexivity].
  unfold save_updated_rules, save_report, bind, lift, print, emit.
  cbn [rules_file trace].
  destruct (py_getitem merged "version") as [version|e];
    [|now rewrite <- !app_assoc].
  destruct (py_getitem merged "rules") as [rules|e];
    [|now rewrite <- !app_assoc].
  destruct (py_len rules) as [total|e]; now rewrite <- !app_assoc.
Qed.

(** The candidates the loop appended have the name it reported. *)
Lemma added_have_names (existing : pyset) (patterns : list pyval) :
  forallb (runs existing) patterns = true ->
  Forall (fun pattern => py_getitem pattern "name" = Ok (name_of pattern))
         (filter (appends existing) patterns).
Proof.
  induction patterns as [|c l IH]; intros Hl; [constructor|].
  simpl in Hl. apply andb_true_iff in Hl as [Hc Hl]. simpl.
  pose proof (runs_is_uncovered _ _ Hc) as Hu.
  destruct (appends existing c); [|auto].
  constructor; [|auto].
  unfold runs in Hc. unfold is_uncovered in Hu. unfold name_of.
  destruct (uncovered existing c) as [[|]|]; try discriminate.
  destruct (py_getitem c "name"); [reflexivity | discriminate].
Qed.

(** The run after a merge that ended. *)
Lemma run_of_merge (patterns : list pyval) (doc : pyval) (log : list event)
    (merged : pyval) (n : Z) (w1 : world) :
  py_truthy doc = true ->
  merge_rules patterns doc (World (Some doc) log) = (Ok (merged, n), w1) ->
  exists count added,
    n = Z.of_nat (length added) /\
    Forall (fun pattern => py_getitem pattern "name" = Ok (name_of pattern)) added /\
    w1 = World (Some doc) (log ++ Printed (MsgCount count) :: report_added added) /\
    ((added = [] /\ merged = doc /\
      analyze_and_update patterns (World (Some doc) log)
        = (Ok tt, World (Some doc) (trace w1 ++ [Printed MsgNoNew]))) \/
     (added <> [] /\
      exists rules version,
        py_getitem doc "rules" = Ok (PList rules) /\
        count = Z.of_nat (length rules) /\
        py_getitem merged "rules" = Ok (PList (rules ++ added)) /\
        py_getitem merged "version" = Ok (PStr version) /\
        analyze_and_update patterns (World (Some doc) log)
          = (Ok tt, World (Some merged)
                          (trace w1 ++ save_report merged n (PStr version) (count + n))))).
Proof.
  intros Htruthy Hmerge.
  rewrite (analyze_and_update_eval _ _ _ Htruthy), Hmerge.
  apply merge_rules_inv in Hmerge
    as (d & rules_v & items & count & -> & Hrules & _ & Hcount & H).
  cbv zeta in H. destruct H as (_ & Hruns & Hn & -> & Hcase).
  apply added_have_names in Hruns.
  set (added := filter (appends (List.rev (track_finds items))) patterns) in *.
  exists count, added. split; [exact Hn|]. split; [exact Hruns|].
  split; [reflexivity|].
  destruct Hcase as [[Hnone ->] | (Hsome & rules & version & -> & _ & ->)].
  - left. rewrite Hn, Hnone. auto.
  - right. split; [exact Hsome|]. exists rules, version.
    simpl in Hcount. injection Hcount as <-.
    split; [now apply getitem_dict|]. split; [reflexivity|].
    split; [apply updated_catalog_rules|].
    split; [apply updated_catalog_version|].
    pose proof (added_count_pos _ Hsome) as Hpos. rewrite <- Hn in Hpos.
    apply Z.ltb_lt in Hpos. rewrite Hpos.
    rewrite updated_catalog_version, updated_catalog_rules. cbn [py_len].
    rewrite length_app, Nat2Z.inj_add, <- Hn. reflexivity.
Qed.

(** X1. A run that raises has written nothing: the rules file is as it
    was and the trace has only grown by printed lines. *)
Theorem failed_run_writes_nothing (patterns : list pyval) (w : world)
    (e : exn) (w' : world) :
  analyze_and_update patterns w = (Raise e, w') ->
  rules_file w' = rules_file w /\
  exists events, trace w' = trace w ++ events /\ writes events = [].
Proof.
  destruct w as [[doc|] log]; [|discriminate].
  destruct (py_truthy doc) eqn:Htruthy.
  - intros H.
    destruct (merge_rules patterns doc (World (Some doc) log))
      as [[[merged n]|e1] w1] eqn:Hmerge.
    + destruct (run_of_merge _ _ _ _ _ _ Htruthy Hmerge)
        as (count & added & _ & _ & _ & [(_ & _ & Hrun) | (_ & rules & version & _ & _ & _ & _ & Hrun)]);
        rewrite Hrun in H; discriminate.
    + rewrite (analyze_and_update_eval _ _ _ Htruthy), Hmerge in H.
      injection H as <- <-. now apply merge_rules_frame in Hmerge.
  - unfold analyze_and_update, bind, load_current_rules. cbn [rules_file].
    rewrite Htruthy. discriminate.
Qed.

Lemma failed_run_writes_nothing_witness :
  analyze_and_update [Samples.hd_remastered]
      (World (Some (PDict Samples.entries_one_part)) [])
    = (Raise IndexError,
       World (Some (PDict Samples.entries_one_part))
             [Printed (MsgCount 0); Printed (MsgAdded (PStr "Remove HD Remastered"))]) /\
  rules_file (World (Some (PDict Samples.entries_one_part))
                [Printed (MsgCount 0); Printed (MsgAdded (PStr "Remove HD Remastered"))])
    = rules_file (World (Some (PDict Samples.entries_one_part)) []) /\
  exists events,
    trace (World (Some (PDict Samples.entries_one_part))
             [Printed (MsgCount 0); Printed (MsgAdded (PStr "Remove HD Remastered"))])
      = trace (World (Some (PDict Samples.entries_one_part)) []) ++ events /\
    writes events = [].
Proof.
  split; [reflexivity|].
  apply (failed_run_writes_nothing [Samples.hd_remastered]
           (World (Some (PDict Samples.entries_one_part)) []) IndexError).
  reflexivity.
Defined.

(** X2. A run that returns writes the rules file once, the merged
    catalog, when the merge added a rule, and does not write at all when it
    added none: the file then holds what it held. *)
Theorem run_writes_once_iff_added (patterns : list pyval) (doc : pyval)
    (log : list event) (w' : world) :
  py_truthy doc = true ->
  analyze_and_update patterns (World (Some doc) log) = (Ok tt, w') ->
  exists merged n w1 events,
    merge_rules patterns doc (World (Some doc) log) = (Ok (merged, n), w1) /\
    trace w' = log ++ events /\
    writes events = (if 0 <? n then [merged] else []) /\
    rules_file w' = Some (if 0 <? n then merged else doc).
Proof.
  intros Htruthy H.
  destruct (merge_rules patterns doc (World (Some doc) log))
    as [[[merged n]|e1] w1] eqn:Hmerge.
  - exists merged, n, w1.
    destruct (run_of_merge _ _ _ _ _ _ Htruthy Hmerge)
      as (count & added & Hn & _ & -> & [(Hnone & -> & Hrun) | (Hsome & rules & version & _ & _ & _ & _ & Hrun)]);
      rewrite Hrun in H; injection H as <-; cbn [trace rules_file].
    + rewrite Hn, Hnone. cbn.
      exists (Printed (MsgCount count) :: [Printed MsgNoNew]).
      split; [reflexivity|]. split; [now rewrite <- app_assoc | auto].
    + pose proof (added_count_pos _ Hsome) as Hpos. rewrite <- Hn in Hpos.
      apply Z.ltb_lt in Hpos. rewrite Hpos.
      exists (Printed (MsgCount count) :: report_added added
              ++ save_report merged n (PStr version) (count + n)).
      split; [reflexivity|]. split; [now rewrite <- app_assoc|].
      split; [|reflexivity].
      change (writes (Printed (MsgCount count) :: report_added added
                      ++ save_report merged n (PStr version) (count + n)))
        with (writes (report_added added
                      ++ save_report merged n (PStr version) (count + n))).
      now rewrite writes_app, writes_report_added.
  - rewrite (analyze_and_update_eval _ _ _ Htruthy), Hmerge in H. discriminate.
Qed.

Lemma run_writes_once_iff_added_witness :
  (py_truthy Samples.catalog_a = true /\
   analyze_and_update Samples.candidates_a (World (Some Samples.catalog_a) [])
     = (Ok tt, Samples.saved_a)) /\
  exists merged n w1 events,
    merge_rules Samples.candidates_a Samples.catalog_a (World (Some Samples.catalog_a) [])
      = (Ok (merged, n), w1) /\
    trace Samples.saved_a = [] ++ events /\
    writes events = (if 0 <? n then [merged] else []) /\
    rules_file Samples.saved_a = Some (if 0 <? n then merged else Samples.catalog_a).
Proof.
  split; [split; reflexivity|].
  apply (run_writes_once_iff_added Samples.candidates_a Samples.catalog_a []
           Samples.saved_a); reflexivity.
Defined.

(** X3. What a run that added rules reports, in order: the count of the
    rules it found, one line with the name of each appended rule in the
    order of the appended rules, the write of the merged catalog, the
    number added with the new version, and a total that is the first count
    plus the number added. *)
Theorem run_report (patterns : list pyval) (doc : pyval) (log : list event)
    (merged : pyval) (n : Z) (w1 w' : world) :
  py_truthy doc = true ->
  merge_rules patterns doc (World (Some doc) log) = (Ok (merged, n), w1) ->
  0 < n ->
  analyze_and_update patterns (World (Some doc) log) = (Ok tt, w') ->
  exists rules added version,
    py_getitem doc "rules" = Ok (PList rules) /\
    py_getitem merged "rules" = Ok (PList (rules ++ added)) /\
    py_getitem merged "version" = Ok (PStr version) /\
    n = Z.of_nat (length added) /\
    Forall (fun pattern => py_getitem pattern "name" = Ok (name_of pattern)) added /\
    trace w' =
      log ++ Printed (MsgCount (Z.of_nat (length rules)))
          :: map (fun pattern => Printed (MsgAdded (name_of pattern))) added
          ++ [Written merged; Printed MsgSaved;
              Printed (MsgSummary n (PStr version));
              Printed (MsgTotal (Z.of_nat (length rules) + n))].
Proof.
  intros Htruthy Hmerge Hpos H.
  destruct (run_of_merge _ _ _ _ _ _ Htruthy Hmerge)
    as (count & added & Hn & Hnames & Hw
        & [(Hnone & _) | (Hsome & rules & version & Hr & -> & Hr' & Hv & Hrun)]).
  - rewrite Hn, Hnone in Hpos. simpl in Hpos. lia.
  - exists rules, added, version.
    repeat (split; [assumption|]).
    rewrite Hrun in H. injection H as <-. rewrite Hw. cbn [trace].
    rewrite <- app_assoc. reflexivity.
Qed.

Lemma run_report_witness :
  (py_truthy Samples.catalog_a = true /\
   merge_rules Samples.candidates_a Samples.catalog_a (World (Some Samples.catalog_a) [])
     = (Ok (Samples.merged_a, 1),
        World (Some Samples.catalog_a)
              [Printed (MsgCount 1); Printed (MsgAdded (PStr "Remove HD Remastered"))]) /\
   0 < 1 /\
   analyze_and_update Samples.candidates_a (World (Some Samples.catalog_a) [])
     = (Ok tt, Samples.saved_a)) /\
  exists rules added version,
    py_getitem Samples.catalog_a "rules" = Ok (PList rules) /\
    py_getitem Samples.merged_a "rules" = Ok (PList (rules ++ added)) /\
    py_getitem Samples.merged_a "version" = Ok (PStr version) /\
    1 = Z.of_nat (length added) /\
    Forall (fun pattern => py_getitem pattern "name" = Ok (name_of pattern)) added /\
    trace Samples.saved_a =
      [] ++ Printed (MsgCount (Z.of_nat (length rules)))
         :: map (fun pattern => Printed (MsgAdded (name_of pattern))) added
         ++ [Written Samples.merged_a; Printed MsgSaved;
             Printed (MsgSummary 1 (PStr version));
             Printed (MsgTotal (Z.of_nat (length rules) + 1))].
Proof.
  split; [repeat split|].
  apply (run_report Samples.candidates_a Samples.catalog_a [] Samples.merged_a 1
           (World (Some Samples.catalog_a)
              [Printed (MsgCount 1); Printed (MsgAdded (PStr "Remove HD Remastered"))])
           Samples.saved_a); reflexivity.
Defined.

(** ** The fields of the catalog *)

Lemma keys_dict_set (d : list (string * pyval)) (key : string) (v : pyval) :
  keys (dict_set d key v) = if dict_has d key then keys d else keys d ++ [key].
Proof.
  unfold keys, dict_has. induction d as [|[k x] rest IH]; simpl; [reflexivity|].
  destruct (String.eqb k key) eqn:E; simpl; [reflexivity|].
  rewrite IH. now destruct (dict_get rest key).
Qed.

Lemma keys_after_set (d : list (string * pyval)) (key : string) (v : pyval) :
  exists extra, keys (dict_set d key v) = keys d ++ extra /\ incl extra [key].
Proof.
  rewrite keys_dict_set. destruct (dict_has d key).
  - exists []. split; [now rewrite app_nil_r | intros x []].
  - exists [key]. split; [reflexivity | apply incl_refl].
Qed.

Lemma updated_catalog_fields (d : list (string * pyval)) (rules added : list pyval)
    (version : string) :
  dict_get d "rules" = Some (PList rules) ->
  exists d' extra,
    updated_catalog d rules added version = PDict d' /\
    (forall key, key <> "rules" -> key <> "version" -> key <> "description" ->
                 dict_get d' key = dict_get d key) /\
    keys d' = keys d ++ extra /\
    incl extra ["version"; "description"].
Proof.
  intros Hrules. unfold updated_catalog.
  assert (Hk1 : keys (dict_set d "rules" (PList (rules ++ added))) = keys d).
  { rewrite keys_dict_set. unfold dict_has. now rewrite Hrules. }
  destruct (keys_after_set (dict_set d "rules" (PList (rules ++ added)))
              "version" (PStr version)) as (e2 & Hk2 & Hin2).
  destruct (keys_after_set
              (dict_set (dict_set d "rules" (PList (rules ++ added)))
                        "version" (PStr version))
              "description" (PStr (description_of (Z.of_nat (length added)))))
    as (e3 & Hk3 & Hin3).
  eexists. exists (e2 ++ e3). split; [reflexivity|]. split; [|split].
  - intros key Hr Hv Hd.
    rewrite (dict_get_set_other _ _ _ _ (not_eq_sym Hd)).
    rewrite (dict_get_set_other _ _ _ _ (not_eq_sym Hv)).
    now rewrite (dict_get_set_other _ _ _ _ (not_eq_sym Hr)).
  - now rewrite Hk3, Hk2, Hk1, app_assoc.
  - intros x Hx. apply in_app_iff in Hx as [Hx | Hx].
    + apply Hin2 in Hx. simpl in *. tauto.
    + apply Hin3 in Hx. simpl in *. tauto.
Qed.

(** X4. The merge touches three fields of the catalog and no other:
    every field but [rules], [version] and [description] has the value it
    had, the keys stay in their order, and the only keys the merge can add,
    at the end, are [version] and [description]. *)
Theorem other_fields_kept (patterns : list pyval) (d : list (string * pyval))
    (w : world) (merged : pyval) (n : Z) (w' : world) :
  merge_rules patterns (PDict d) w = (Ok (merged, n), w') ->
  exists d' extra,
    merged = PDict d' /\
    (forall key, key <> "rules" -> key <> "version" -> key <> "description" ->
                 dict_get d' key = dict_get d key) /\
    keys d' = keys d ++ extra /\
    incl extra ["version"; "description"].
Proof.
  intros H.
  apply merge_rules_inv in H as (d0 & rules_v & items & count & [= <-] & Hrules & _ & _ & H).
  cbv zeta in H. destruct H as (_ & _ & _ & _ & Hcase).
  destruct Hcase as [[_ ->] | (_ & rules & version & -> & _ & ->)].
  - exists d, []. split; [reflexivity|]. split; [auto|].
    split; [now rewrite app_nil_r | intros x []].
  - destruct (updated_catalog_fields d rules
                (filter (appends (List.rev (track_finds items))) patterns)
                version Hrules) as (d' & extra & Hd' & Hget & Hkeys & Hextra).
    exists d', extra. auto.
Qed.

Lemma other_fields_kept_witness :
  merge_rules Samples.candidates_a (PDict Samples.entries_more) (World None [])
    = (Ok (Samples.merged_more, 1), Samples.world_a) /\
  exists d' extra,
    Samples.merged_more = PDict d' /\
    (forall key, key <> "rules" -> key <> "version" -> key <> "description" ->
                 dict_get d' key = dict_get Samples.entries_more key) /\
    keys d' = keys Samples.entries_more ++ extra /\
    incl extra ["version"; "description"].
Proof.
  split; [reflexivity|].
  apply (other_fields_kept Samples.candidates_a Samples.entries_more (World None [])
           Samples.merged_more 1 Samples.world_a).
  reflexivity.
Defined.

(** ** The version *)

Lemma bump_version_ok (current_version : pyval) (version' : string) :
  bump_version current_version = Ok version' ->
  exists version major minor rest m,
    current_version = PStr version /\
    split_dot version = major :: minor :: rest /\
    int_of_str minor = Some m /\
    version' = join_dot (major :: str_of_int (m + 1) :: rest).
Proof.
  unfold bump_version. destruct current_version as [| | |version| |]; try discriminate.
  simpl. destruct (split_dot version) as [|major [|minor rest]] eqn:Hsplit;
    try discriminate.
  destruct (int_of_str minor) as [m|] eqn:Hm; [|discriminate].
  intros [= <-]. exists version, major, minor, rest, m. auto.
Qed.


(** X5. A version that the bump accepted gives a version that can be
    bumped again: the new version is never malformed, its parts are those
    of the version before with the second one replaced by the numeral of
    its value plus one, and the second bump gives the second part of the
    version before plus two. The version is taken shorter than 4300
    characters, the number of digits up to which the interpreter converts
    between int and str by default: both bumps stay below it. *)
Theorem bumped_version_bumps_again (version version' : string) :
  (String.length version < 4300)%nat ->
  bump_version (PStr version) = Ok version' ->
  malformed_version version' = false /\
  exists major minor rest m,
    split_dot version = major :: minor :: rest /\
    int_of_str minor = Some m /\
    split_dot version' = major :: str_of_int (m + 1) :: rest /\
    bump_version (PStr version')
      = Ok (join_dot (major :: str_of_int (m + 2) :: rest)).
Proof.
  intros _ H.
  apply bump_version_ok in H
    as (version0 & major & minor & rest & m & [= <-] & Hsplit & Hm & ->).
  destruct (bump_version_parts _ _ _ _ _ Hsplit Hm) as [_ Hparts].
  pose proof (int_of_str_of_int (m + 1)) as Hback.
  split.
  - unfold malformed_version. now rewrite Hparts, Hback.
  - exists major, minor, rest, m.
    repeat (split; [assumption || reflexivity|]).
    destruct (bump_version_parts _ _ _ _ _ Hparts Hback) as [Hagain _].
    rewrite Hagain. now replace (m + 1 + 1) with (m + 2) by lia.
Qed.

Lemma bumped_version_bumps_again_witness :
  ((String.length "2. 0_9 .x" < 4300)%nat /\
   bump_version (PStr "2. 0_9 .x") = Ok "2.10.x") /\
  malformed_version "2.10.x" = false /\
  exists major minor rest m,
    split_dot "2. 0_9 .x" = major :: minor :: rest /\
    int_of_str minor = Some m /\
    split_dot "2.10.x" = major :: str_of_int (m + 1) :: rest /\
    bump_version (PStr "2.10.x")
      = Ok (join_dot (major :: str_of_int (m + 2) :: rest)).
Proof.
  split; [split; [simpl; lia | reflexivity]|].
  apply (bumped_version_bumps_again "2. 0_9 .x" "2.10.x");
    [simpl; lia | reflexivity].
Defined.

(** ** Well shaped catalogs and candidates *)

Lemma existsb_filter_nil {A : Type} (keep : A -> bool) (l : list A) :
  existsb keep l = false -> filter keep l = [].
Proof.
  induction l as [|x rest IH]; simpl; [reflexivity|].
  destruct (keep x); simpl; [discriminate | exact IH].
Qed.

Lemma existsb_filter_cons {A : Type} (keep : A -> bool) (l : list A) :
  existsb keep l = true -> filter keep l <> [].
Proof.
  induction l as [|x rest IH]; simpl; [discriminate|].
  destruct (keep x); simpl; [discriminate | exact IH].
Qed.

Lemma dict_truthy (d : list (string * pyval)) (key : string) (v : pyval) :
  dict_get d key = Some v -> py_truthy (PDict d) = true.
Proof. destruct d; [discriminate | reflexivity]. Qed.

(** The run on a catalog of well shaped rules with well shaped
    candidates, by what the loop appends and what the bump of the version
    gives. *)
Lemma well_shaped_run_eval (patterns : list pyval) (d : list (string * pyval))
    (rules : list pyval) (log : list event) :
  dict_get d "rules" = Some (PList rules) ->
  forallb rule_ok rules = true ->
  forallb candidate_ok patterns = true ->
  let added := filter (appends (List.rev (track_finds rules))) patterns in
  let n := Z.of_nat (length added) in
  let counted := log ++ Printed (MsgCount (Z.of_nat (length rules)))
                     :: report_added added in
  analyze_and_update patterns (World (Some (PDict d)) log) =
    match added with
    | [] => (Ok tt, World (Some (PDict d)) (counted ++ [Printed MsgNoNew]))
    | _ :: _ =>
        match bump_version (version_or_default d) with
        | Ok version =>
            (Ok tt,
             World (Some (updated_catalog d rules added version))
                   (counted ++ save_report (updated_catalog d rules added version) n
                                           (PStr version)
                                           (Z.of_nat (length rules) + n)))
        | Raise e => (Raise e, World (Some (PDict d)) counted)
        end
    end.
Proof.
  intros Hrules Hshape Hok added n counted. subst n counted.
  pose proof (scan_rules_run rules [] Hshape) as Hscan. rewrite app_nil_r in Hscan.
  pose proof (candidates_ok_run (List.rev (track_finds rules)) _ Hok) as Hruns.
  rewrite (analyze_and_update_eval _ _ _ (dict_truthy _ _ _ Hrules)).
  rewrite (merge_rules_eval _ _ _ _ _ Hrules Hscan Hruns).
  fold added. cbn [rules_file trace].
  destruct added as [|c added'] eqn:Hadded; [reflexivity|].
  destruct (bump_version (version_or_default d)) as [version|e]; [|reflexivity].
  replace (0 <? Z.of_nat (length (c :: added'))) with true
    by (symmetry; apply Z.ltb_lt; simpl length; lia).
  rewrite updated_catalog_version, updated_catalog_rules. cbn [py_len trace].
  now rewrite length_app, Nat2Z.inj_add.
Qed.

(** X6. The version is only looked at when a rule was added. On a
    catalog of well shaped rules, with well shaped candidates none of which
    is new, the run returns, reports the count and that nothing was needed,
    and writes nothing, whatever the version of the catalog is: missing,
    not a string or malformed. *)
Theorem unchanged_run_ignores_version (patterns : list pyval)
    (d : list (string * pyval)) (rules : list pyval) (log : list event) :
  dict_get d "rules" = Some (PList rules) ->
  forallb rule_ok rules = true ->
  forallb candidate_ok patterns = true ->
  existsb (appends (List.rev (track_finds rules))) patterns = false ->
  analyze_and_update patterns (World (Some (PDict d)) log)
    = (Ok tt, World (Some (PDict d))
                    (log ++ [Printed (MsgCount (Z.of_nat (length rules)));
                             Printed MsgNoNew])).
Proof.
  intros Hrules Hshape Hok Hnone.
  pose proof (scan_rules_run rules [] Hshape) as Hscan. rewrite app_nil_r in Hscan.
  pose proof (candidates_ok_run (List.rev (track_finds rules)) _ Hok) as Hruns.
  rewrite (analyze_and_update_eval _ _ _ (dict_truthy _ _ _ Hrules)).
  rewrite (merge_rules_eval _ _ _ _ _ Hrules Hscan Hruns).
  rewrite (existsb_filter_nil _ _ Hnone). cbn.
  now rewrite <- app_assoc.
Qed.

Lemma unchanged_run_ignores_version_witness :
  (dict_get Samples.entries_numbered "rules" = Some (PList [Samples.remastered]) /\
   forallb rule_ok [Samples.remastered] = true /\
   forallb candidate_ok [Samples.empty_key_a; Samples.no_pattern] = true /\
   existsb (appends (List.rev (track_finds [Samples.remastered])))
           [Samples.empty_key_a; Samples.no_pattern] = false) /\
  analyze_and_update [Samples.empty_key_a; Samples.no_pattern]
      (World (Some (PDict Samples.entries_numbered)) [])
    = (Ok tt, World (Some (PDict Samples.entries_numbered))
                    ([] ++ [Printed (MsgCount (Z.of_nat (length [Samples.remastered])));
                            Printed MsgNoNew])).
Proof.
  split; [repeat split|].
  apply (unchanged_run_ignores_version [Samples.empty_key_a; Samples.no_pattern]
           Samples.entries_numbered [Samples.remastered] []);
    reflexivity.
Defined.





(** ** The order of the rules and the number of rules *)

Lemma in_keys_same (existing existing' : pyset) (key : pyval) :
  (forall k, In k existing <-> In k existing') ->
  in_keys existing key = in_keys existing' key.
Proof.
  intros Hsame. unfold in_keys.
  destruct (existsb (py_key_eqb key) existing') eqn:E'.
  - apply existsb_exists in E' as (k & Hin & Hk).
    apply existsb_exists. exists k. split; [now apply Hsame | exact Hk].
  - destruct (existsb (py_key_eqb key) existing) eqn:E; [|reflexivity].
    apply existsb_exists in E as (k & Hin & Hk).
    assert (Hex : existsb (py_key_eqb key) existing' = true).
    { apply existsb_exists. exists k. split; [now apply Hsame | exact Hk]. }
    congruence.
Qed.

Lemma appends_same (existing existing' : pyset) (pattern : pyval) :
  (forall k, In k existing <-> In k existing') ->
  appends existing pattern = appends existing' pattern.
Proof.
  intros Hsame. unfold appends, skips.
  destruct (identity_key pattern) as [key|]; [|reflexivity].
  now rewrite (in_keys_same _ _ key Hsame).
Qed.

Lemma track_finds_perm (rules rules' : list pyval) :
  Permutation rules rules' ->
  forall k, In k (List.rev (track_finds rules)) <-> In k (List.rev (track_finds rules')).
Proof.
  intros Hperm k. rewrite <- !in_rev, !in_track_finds.
  split; intros (rule & Hin & Hk); exists rule; split; auto.
  - now apply (Permutation_in _ Hperm).
  - now apply (Permutation_in _ (Permutation_sym Hperm)).
Qed.

Lemma merged_rules_of_list (patterns : list pyval) (d : list (string * pyval))
    (rules : list pyval) (w : world) (merged : pyval) (n : Z) (w' : world) :
  dict_get d "rules" = Some (PList rules) ->
  merge_rules patterns (PDict d) w = (Ok (merged, n), w') ->
  n = Z.of_nat (length (filter (appends (List.rev (track_finds rules))) patterns)) /\
  py_getitem merged "rules"
    = Ok (PList (rules ++ filter (appends (List.rev (track_finds rules))) patterns)).
Proof.
  intros Hrules H.
  apply merge_rules_inv in H as (d0 & rules_v & items & count & [= <-] & Hrules' & Hiter & _ & H).
  rewrite Hrules in Hrules'. injection Hrules' as <-.
  simpl in Hiter. injection Hiter as <-.
  cbv zeta in H. destruct H as (_ & _ & Hn & _ & Hcase).
  split; [exact Hn|].
  destruct Hcase as [[Hnone ->] | (_ & rules0 & version & [= <-] & _ & ->)].
  - rewrite Hnone, app_nil_r. now apply getitem_dict.
  - apply updated_catalog_rules.
Qed.

(** X8. The order of the rules of the catalog does not matter to the
    merge: on two catalogs whose rules are the same up to their order, the
    same candidates are appended, in the same order, and the same number is
    counted. *)
Theorem rule_order_irrelevant (patterns : list pyval)
    (d1 d2 : list (string * pyval)) (rules1 rules2 : list pyval)
    (w1 w2 : world) (merged1 merged2 : pyval) (n1 n2 : Z) (w1' w2' : world) :
  Permutation rules1 rules2 ->
  dict_get d1 "rules" = Some (PList rules1) ->
  dict_get d2 "rules" = Some (PList rules2) ->
  merge_rules patterns (PDict d1) w1 = (Ok (merged1, n1), w1') ->
  merge_rules patterns (PDict d2) w2 = (Ok (merged2, n2), w2') ->
  n1 = n2 /\
  exists added,
    py_getitem merged1 "rules" = Ok (PList (rules1 ++ added)) /\
    py_getitem merged2 "rules" = Ok (PList (rules2 ++ added)).
Proof.
  intros Hperm Hr1 Hr2 H1 H2.
  destruct (merged_rules_of_list _ _ _ _ _ _ _ Hr1 H1) as [-> Hm1].
  destruct (merged_rules_of_list _ _ _ _ _ _ _ Hr2 H2) as [-> Hm2].
  assert (Hsame : filter (appends (List.rev (track_finds rules1))) patterns
                  = filter (appends (List.rev (track_finds rules2))) patterns).
  { apply filter_ext. intros c. apply appends_same. now apply track_finds_perm. }
  rewrite Hsame in *. split; [reflexivity|]. eauto.
Qed.

Lemma rule_order_irrelevant_witness :
  (Permutation [Samples.remastered; Samples.live_a] [Samples.live_a; Samples.remastered] /\
   dict_get Samples.entries_ab "rules"
     = Some (PList [Samples.remastered; Samples.live_a]) /\
   dict_get Samples.entries_ba "rules"
     = Some (PList [Samples.live_a; Samples.remastered]) /\
   merge_rules Samples.candidates_a (PDict Samples.entries_ab) (World None [])
     = (Ok (updated_catalog Samples.entries_ab [Samples.remastered; Samples.live_a]
              [Samples.hd_remastered] "1.3", 1),
        World None [Printed (MsgCount 2);
                    Printed (MsgAdded (PStr "Remove HD Remastered"))]) /\
   merge_rules Samples.candidates_a (PDict Samples.entries_ba) (World None [])
     = (Ok (updated_catalog Samples.entries_ba [Samples.live_a; Samples.remastered]
              [Samples.hd_remastered] "1.3", 1),
        World None [Printed (MsgCount 2);
                    Printed (MsgAdded (PStr "Remove HD Remastered"))])) /\
  1 = 1 /\
  exists added,
    py_getitem (updated_catalog Samples.entries_ab [Samples.remastered; Samples.live_a]
                  [Samples.hd_remastered] "1.3") "rules"
      = Ok (PList ([Samples.remastered; Samples.live_a] ++ added)) /\
    py_getitem (updated_catalog Samples.entries_ba [Samples.live_a; Samples.remastered]
                  [Samples.hd_remastered] "1.3") "rules"
      = Ok (PList ([Samples.live_a; Samples.remastered] ++ added)).
Proof.
  split; [split; [apply perm_swap | repeat split]|].
  apply (rule_order_irrelevant Samples.candidates_a Samples.entries_ab Samples.entries_ba
           [Samples.remastered; Samples.live_a] [Samples.live_a; Samples.remastered]
           (World None []) (World None []) _ _ 1 1
           (World None [Printed (MsgCount 2);
                        Printed (MsgAdded (PStr "Remove HD Remastered"))])
           (World None [Printed (MsgCount 2);
                        Printed (MsgAdded (PStr "Remove HD Remastered"))]));
    [apply perm_swap | reflexivity ..].
Defined.

(** X9. The number of added rules is at most the number of candidates,
    and a catalog whose rules are a list has, after the merge, as many
    rules as before plus the number added. *)
Theorem added_count_bounds (patterns : list pyval) (d : list (string * pyval))
    (rules : list pyval) (w : world) (merged : pyval) (n : Z) (w' : world) :
  dict_get d "rules" = Some (PList rules) ->
  merge_rules patterns (PDict d) w = (Ok (merged, n), w') ->
  0 <= n <= Z.of_nat (length patterns) /\
  exists rules',
    py_getitem merged "rules" = Ok (PList rules') /\
    Z.of_nat (length rules') = Z.of_nat (length rules) + n.
Proof.
  intros Hrules H.
  destruct (merged_rules_of_list _ _ _ _ _ _ _ Hrules H) as [-> Hm].
  split.
  - pose proof (filter_length_le (appends (List.rev (track_finds rules))) patterns).
    lia.
  - eexists. split; [exact Hm|]. rewrite length_app. lia.
Qed.

Lemma added_count_bounds_witness :
  (dict_get Samples.entries_a "rules" = Some (PList [Samples.remastered]) /\
   merge_rules Samples.candidates_a (PDict Samples.entries_a) (World None [])
     = (Ok (Samples.merged_a, 1), Samples.world_a)) /\
  0 <= 1 <= Z.of_nat (length Samples.candidates_a) /\
  exists rules',
    py_getitem Samples.merged_a "rules" = Ok (PList rules') /\
    Z.of_nat (length rules') = Z.of_nat (length [Samples.remastered]) + 1.
Proof.
  split; [split; reflexivity|].
  apply (added_count_bounds Samples.candidates_a Samples.entries_a [Samples.remastered]
           (World None []) Samples.merged_a 1 Samples.world_a); reflexivity.
Defined.

(** ** Catalogs without [track_name] rules *)

Lemma track_finds_none (rules : list pyval) :
  (forall rule, In rule rules -> rule_track_find rule = None) ->
  track_finds rules = [].
Proof.
  induction rules as [|rule rest IH]; intros H; [reflexivity|].
  unfold track_finds in *. simpl. rewrite (H rule (or_introl eq_refl)). simpl.
  apply IH. intros r Hr. apply H. now right.
Qed.

(** X10. A catalog none of whose rules has a [track_name] pattern spec
    holds nothing back: every candidate with a key that is not empty is
    appended, also one whose [album_name.find] is the [album_name.find] of
    a rule of the catalog. *)
Theorem album_catalog_blocks_nothing (patterns : list pyval)
    (d : list (string * pyval)) (rules : list pyval)
    (w : world) (merged : pyval) (n : Z) (w' : world) :
  dict_get d "rules" = Some (PList rules) ->
  (forall rule, In rule rules -> rule_track_find rule = None) ->
  merge_rules patterns (PDict d) w = (Ok (merged, n), w') ->
  n = Z.of_nat (length (filter has_key patterns)) /\
  py_getitem merged "rules" = Ok (PList (rules ++ filter has_key patterns)).
Proof.
  intros Hrules Hnone H.
  destruct (merged_rules_of_list _ _ _ _ _ _ _ Hrules H) as [Hn Hm].
  rewrite (track_finds_none _ Hnone) in Hn, Hm. simpl in Hn, Hm.
  assert (Hsame : filter (appends []) patterns = filter has_key patterns).
  { apply filter_ext. intros c. unfold appends, skips, has_key.
    destruct (identity_key c) as [key|]; [|reflexivity].
    simpl. now rewrite orb_false_r, negb_involutive. }
  now rewrite Hsame in Hn, Hm.
Qed.

Lemma album_catalog_blocks_nothing_witness :
  (dict_get Samples.entries_album "rules" = Some (PList [Samples.album_rule]) /\
   (forall rule, In rule [Samples.album_rule] -> rule_track_find rule = None) /\
   merge_rules [Samples.album_again] (PDict Samples.entries_album) (World None [])
     = (Ok (updated_catalog Samples.entries_album [Samples.album_rule]
              [Samples.album_again] "1.2", 1),
        World None [Printed (MsgCount 1);
                    Printed (MsgAdded (PStr "Remove Deluxe Remaster once more"))])) /\
  1 = Z.of_nat (length (filter has_key [Samples.album_again])) /\
  py_getitem (updated_catalog Samples.entries_album [Samples.album_rule]
                [Samples.album_again] "1.2") "rules"
    = Ok (PList ([Samples.album_rule] ++ filter has_key [Samples.album_again])).
Proof.
  assert (Hnone : forall rule, In rule [Samples.album_rule] ->
                               rule_track_find rule = None).
  { intros rule [<- | []]. reflexivity. }
  split; [repeat split; exact Hnone|].
  apply (album_catalog_blocks_nothing [Samples.album_again] Samples.entries_album
           [Samples.album_rule] (World None []) _ 1
           (World None [Printed (MsgCount 1);
                        Printed (MsgAdded (PStr "Remove Deluxe Remaster once more"))]));
    [reflexivity | exact Hnone | reflexivity].
Defined.

(** ** A candidate without a name *)

(** The loop over a list in two stretches. *)
Lemma add_new_patterns_app (existing : pyset) (before rest : list pyval) :
  forall (current_rules : pyval) (n : Z) (w : world),
    add_new_patterns existing (before ++ rest) current_rules n w =
      match add_new_patterns existing before current_rules n w with
      | (Ok (current_rules', n'), w') =>
          add_new_patterns existing rest current_rules' n' w'
      | (Raise e, w') => (Raise e, w')
      end.
Proof.
  induction before as [|pattern before IH]; intros cur n w.
  { simpl. now destruct (add_new_patterns existing rest cur n w) as [[[c m]|e] w']. }
  rewrite <- app_comm_cons. cbn [add_new_patterns].
  unfold bind, lift, print, emit.
  destruct (uncovered existing pattern) as [[|]|e]; [| apply IH | reflexivity].
  destruct (py_getitem cur "rules") as [rules|e]; [|reflexivity].
  destruct (py_append rules pattern) as [rules'|e]; [|reflexivity].
  destruct (py_setitem cur "rules" rules') as [cur'|e]; [|reflexivity].
  destruct (py_getitem pattern "name") as [name|e]; [|reflexivity].
  apply IH.
Qed.

(** The test of the loop on a well shaped rule. *)
Lemma rule_ok_uncovered (existing : pyset) (pattern : pyval) :
  rule_ok pattern = true ->
  uncovered existing pattern = Ok (appends existing pattern).
Proof.
  unfold rule_ok, uncovered, pattern_key, appends, skips, identity_key.
  destruct pattern as [| | | | |r]; try discriminate.
  intros H. apply andb_true_iff in H as [Htrack Halbum].
  simpl. unfold dict_has.
  destruct (dict_get r "track_name") as [spec|].
  - simpl. destruct spec as [| | | | |sp]; try discriminate. simpl in *.
    destruct (dict_get sp "find") as [[| | |s| |]|]; try discriminate. simpl.
    destruct (negb (s =? "")%string); reflexivity.
  - simpl. destruct (dict_get r "album_name") as [spec|]; simpl; auto.
    destruct spec as [| | | | |sp]; try discriminate. simpl in *.
    destruct (dict_get sp "find") as [[| | |s| |]|]; try discriminate. simpl.
    destruct (negb (s =? "")%string); reflexivity.
Qed.

(** X11. A new candidate without a name stops the run. The candidates
    before it are reported as added, then the run raises KeyError at the
    report of the one without a name: nothing is written, and the rules
    file does not hold the rules that were appended to the catalog. *)
Theorem nameless_candidate_aborts (before after : list pyval)
    (r : list (string * pyval)) (d : list (string * pyval)) (rules : list pyval)
    (log : list event) :
  let existing := List.rev (track_finds rules) in
  dict_get d "rules" = Some (PList rules) ->
  forallb rule_ok rules = true ->
  forallb candidate_ok before = true ->
  rule_ok (PDict r) = true ->
  appends existing (PDict r) = true ->
  dict_get r "name" = None ->
  analyze_and_update (before ++ PDict r :: after) (World (Some (PDict d)) log)
    = (Raise KeyError,
       World (Some (PDict d))
             (log ++ Printed (MsgCount (Z.of_nat (length rules)))
                  :: report_added (filter (appends existing) before))).
Proof.
  intros existing Hrules Hshape Hok Hrule Hnew Hname.
  pose proof (scan_rules_run rules [] Hshape) as Hscan. rewrite app_nil_r in Hscan.
  pose proof (candidates_ok_run existing _ Hok) as Hruns.
  rewrite (analyze_and_update_eval _ _ _ (dict_truthy _ _ _ Hrules)).
  unfold merge_rules.
  rewrite (bind_lift _ _ _ _ (getitem_dict _ _ _ Hrules)).
  rewrite (bind_lift _ _ _ (Z.of_nat (length rules)) eq_refl), bind_print.
  rewrite (bind_lift _ _ _ existing Hscan).
  unfold bind at 1. rewrite add_new_patterns_app.
  rewrite (add_new_patterns_run _ _ _ _ _ _ Hrules Hruns).
  rewrite (filter_uncovered _ _ Hruns).
  cbn [add_new_patterns].
  rewrite (bind_lift _ _ _ true
             (eq_trans (rule_ok_uncovered existing _ Hrule) (f_equal Ok Hnew))).
  rewrite (bind_lift _ _ _ _ (getitem_dict _ _ _ (dict_get_set_same _ _ _))).
  unfold bind, lift. cbn [py_append py_setitem py_getitem]. rewrite Hname.
  cbn [rules_file trace]. now rewrite <- app_assoc.
Qed.

Lemma nameless_candidate_aborts_witness :
  (dict_get Samples.entries_a "rules" = Some (PList [Samples.remastered]) /\
   forallb rule_ok [Samples.remastered] = true /\
   forallb candidate_ok [Samples.hd_remastered] = true /\
   rule_ok Samples.nameless = true /\
   appends (List.rev (track_finds [Samples.remastered])) Samples.nameless = true /\
   dict_get [("track_name", pattern_spec "^(.+?) - Demo$" "$1")] "name" = None) /\
  analyze_and_update ([Samples.hd_remastered] ++ Samples.nameless :: [Samples.live_a])
      (World (Some (PDict Samples.entries_a)) [])
    = (Raise KeyError,
       World (Some (PDict Samples.entries_a))
             ([] ++ Printed (MsgCount (Z.of_nat (length [Samples.remastered])))
                 :: report_added
                      (filter (appends (List.rev (track_finds [Samples.remastered])))
                              [Samples.hd_remastered]))).
Proof.
  split; [repeat split|].
  apply (nameless_candidate_aborts [Samples.hd_remastered] [Samples.live_a]
           [("track_name", pattern_spec "^(.+?) - Demo$" "$1")]
           Samples.entries_a [Samples.remastered] []);
    reflexivity.
Defined.

(** ** Documents that are no catalog *)

(** X12. What the run does with a document it cannot read the rules of.
    A dict without [rules] raises KeyError; a truthy document that is no
    dict raises TypeError; so does a catalog whose [rules] are None, a
    boolean or a number. In each case nothing has been printed or written
    when the run stops. *)
Theorem catalog_without_rules (patterns : list pyval) (log : list event) :
  (forall d, d <> [] -> dict_get d "rules" = None ->
     analyze_and_update patterns (World (Some (PDict d)) log)
       = (Raise KeyError, World (Some (PDict d)) log)) /\
  (forall doc, py_truthy doc = true -> (forall d, doc <> PDict d) ->
     analyze_and_update patterns (World (Some doc) log)
       = (Raise TypeError, World (Some doc) log)) /\
  (forall d v, dict_get d "rules" = Some v ->
     v = PNone \/ (exists b, v = PBool b) \/ (exists z, v = PInt z) ->
     analyze_and_update patterns (World (Some (PDict d)) log)
       = (Raise TypeError, World (Some (PDict d)) log)).
Proof.
  split; [|split].
  - intros d Hd Hnone.
    assert (Htruthy : py_truthy (PDict d) = true) by (destruct d; [congruence | reflexivity]).
    rewrite (analyze_and_update_eval _ _ _ Htruthy).
    unfold merge_rules, bind, lift. simpl. now rewrite Hnone.
  - intros doc Htruthy Hdoc.
    rewrite (analyze_and_update_eval _ _ _ Htruthy).
    unfold merge_rules, bind, lift.
    destruct doc; try reflexivity. now destruct (Hdoc entries).
  - intros d v Hrules Hv.
    rewrite (analyze_and_update_eval _ _ _ (dict_truthy _ _ _ Hrules)).
    unfold merge_rules, bind, lift. simpl. rewrite Hrules.
    destruct Hv as [-> | [[b ->] | [z ->]]]; reflexivity.
Qed.

Lemma catalog_without_rules_witness :
  (Samples.entries_no_rules <> [] /\
   dict_get Samples.entries_no_rules "rules" = None /\
   dict_get Samples.entries_counted "rules" = Some (PInt 7)) /\
  analyze_and_update additional_patterns
      (World (Some (PDict Samples.entries_no_rules)) [])
    = (Raise KeyError, World (Some (PDict Samples.entries_no_rules)) []) /\
  analyze_and_update additional_patterns
      (World (Some (PDict Samples.entries_counted)) [])
    = (Raise TypeError, World (Some (PDict Samples.entries_counted)) []).
Proof.
  split; [repeat split; discriminate|].
  split.
  - apply (proj1 (catalog_without_rules additional_patterns []));
      [discriminate | reflexivity].
  - apply (proj2 (proj2 (catalog_without_rules additional_patterns []))
             Samples.entries_counted (PInt 7)); [reflexivity|].
    right. right. now exists 7.
Defined.

(** ** Running the script again *)

(** A second merge, in any world, of candidates whose keys come from
    their [track_name]. *)
Lemma merge_again (patterns : list pyval) (d : list (string * pyval))
    (rules : list pyval) (w w1 w0 : world) (once : pyval) (n : Z) :
  dict_get d "rules" = Some (PList rules) ->
  forallb rule_ok rules = true ->
  forallb track_candidate patterns = true ->
  merge_rules patterns (PDict d) w = (Ok (once, n), w1) ->
  py_truthy once = true /\
  exists w2, merge_rules patterns once w0 = (Ok (once, 0), w2).
Proof.
  intros Hrules Hshape Htrack Hfirst.
  assert (Hok : forallb candidate_ok patterns = true).
  { rewrite forallb_forall in *. intros c Hc.
    now apply track_candidate_key, Htrack. }
  pose proof (track_candidates_covered rules patterns Htrack) as Hcovered.
  cbv zeta in Hcovered.
  pose proof (scan_rules_run rules [] Hshape) as Hscan. rewrite app_nil_r in Hscan.
  rewrite (merge_rules_eval _ _ _ _ w Hrules Hscan (candidates_ok_run _ _ Hok))
    in Hfirst.
  remember (filter (appends (List.rev (track_finds rules))) patterns) as added
    eqn:Hadded.
  assert (Hshape' : forallb rule_ok (rules ++ added) = true).
  { rewrite forallb_app, Hshape. simpl. apply forallb_forall.
    intros c Hc. rewrite Hadded in Hc. apply filter_In in Hc as [Hc _].
    rewrite forallb_forall in Hok. now apply candidate_ok_rule_ok, Hok. }
  pose proof (scan_rules_run _ [] Hshape') as Hscan'. rewrite app_nil_r in Hscan'.
  destruct added as [|c added'].
  - injection Hfirst as <- <- <-. rewrite app_nil_r in Hcovered.
    split; [exact (dict_truthy _ _ _ Hrules)|].
    rewrite (merge_rules_eval _ _ _ _ _ Hrules Hscan (candidates_ok_run _ _ Hok)).
    rewrite Hcovered. eauto.
  - destruct (bump_version (version_or_default d)) as [version|e]; [|discriminate].
    injection Hfirst as <- <- <-.
    destruct (updated_catalog_entries d rules (c :: added') version)
      as (d' & -> & Hrules').
    split; [exact (dict_truthy _ _ _ Hrules')|].
    rewrite (merge_rules_eval _ _ _ _ _ Hrules' Hscan' (candidates_ok_run _ _ Hok)).
    rewrite Hcovered. eauto.
Qed.

(** X13. The script run twice. When the rules of the catalog are well
    shaped and no candidate takes its key from an [album_name], a second
    run right after a run that returned finds nothing to add: it reports
    the count and that no rule was needed, writes nothing, and leaves in
    the rules file what the first run left there. *)
Theorem second_run_adds_nothing (patterns : list pyval) (d : list (string * pyval))
    (rules : list pyval) (log : list event) (w1 : world) :
  dict_get d "rules" = Some (PList rules) ->
  forallb rule_ok rules = true ->
  forallb track_candidate patterns = true ->
  analyze_and_update patterns (World (Some (PDict d)) log) = (Ok tt, w1) ->
  exists saved count,
    rules_file w1 = Some saved /\
    analyze_and_update patterns w1
      = (Ok tt, World (Some saved)
                      (trace w1 ++ [Printed (MsgCount count); Printed MsgNoNew])).
Proof.
  intros Hrules Hshape Htrack H.
  pose proof (dict_truthy _ _ _ Hrules) as Htruthy.
  destruct (merge_rules patterns (PDict d) (World (Some (PDict d)) log))
    as [[[once n]|e] w] eqn:Hmerge.
  2:{ rewrite (analyze_and_update_eval _ _ _ Htruthy), Hmerge in H. discriminate. }
  assert (Hfile : exists log1, w1 = World (Some once) log1).
  { destruct (run_of_merge _ _ _ _ _ _ Htruthy Hmerge)
      as (count & added & _ & _ & _
          & [(_ & -> & Hrun) | (_ & rs & v & _ & _ & _ & _ & Hrun)]);
      rewrite Hrun in H; injection H as <-; eauto. }
  destruct Hfile as [log1 ->].
  destruct (merge_again _ _ _ _ _ (World (Some once) log1) _ _
              Hrules Hshape Htrack Hmerge) as (Htruthy' & w2 & Hsecond).
  destruct (run_of_merge _ _ _ _ _ _ Htruthy' Hsecond)
    as (count & added & Hn & _ & Hw2
        & [(Hnone & _ & Hrun) | (Hsome & _)]).
  - exists once, count. split; [reflexivity|].
    rewrite Hrun, Hw2, Hnone. cbn [trace report_added map].
    now rewrite <- app_assoc.
  - apply added_count_pos in Hsome. lia.
Qed.

Lemma second_run_adds_nothing_witness :
  (dict_get Samples.entries_a "rules" = Some (PList [Samples.remastered]) /\
   forallb rule_ok [Samples.remastered] = true /\
   forallb track_candidate [Samples.hd_remastered; Samples.no_pattern] = true /\
   analyze_and_update [Samples.hd_remastered; Samples.no_pattern]
       (World (Some (PDict Samples.entries_a)) [])
     = (Ok tt, Samples.saved_a)) /\
  exists saved count,
    rules_file Samples.saved_a = Some saved /\
    analyze_and_update [Samples.hd_remastered; Samples.no_pattern] Samples.saved_a
      = (Ok tt, World (Some saved)
                      (trace Samples.saved_a
                       ++ [Printed (MsgCount count); Printed MsgNoNew])).
Proof.
  split; [repeat split|].
  apply (second_run_adds_nothing [Samples.hd_remastered; Samples.no_pattern]
           Samples.entries_a [Samples.remastered] [] Samples.saved_a);
    reflexivity.
Defined.

(** ** A catalog without a version *)

(** X14. A catalog without a version counts as version "1.0": a merge
    that added a rule gives it the version "1.1", and the new key comes
    after the keys the catalog had. *)
Theorem missing_version_defaults (patterns : list pyval) (d : list (string * pyval))
    (w : world) (merged : pyval) (n : Z) (w' : world) :
  dict_get d "version" = None ->
  merge_rules patterns (PDict d) w = (Ok (merged, n), w') ->
  0 < n ->
  py_getitem merged "version" = Ok (PStr "1.1") /\
  exists d' extra,
    merged = PDict d' /\
    keys d' = keys d ++ "version" :: extra /\
    incl extra ["description"].
Proof.
  intros Hversion H Hpos.
  apply merge_rules_inv in H
    as (d0 & rules_v & items & count & [= <-] & Hrules & _ & _ & H).
  cbv zeta in H. destruct H as (_ & _ & -> & _ & Hcase).
  destruct Hcase as [[Hnone _] | (_ & rules & version & -> & Hbump & ->)].
  - rewrite Hnone in Hpos. simpl in Hpos. lia.
  - unfold version_or_default in Hbump. rewrite Hversion in Hbump.
    change (bump_version (PStr "1.0")) with (Ok (A:=string) "1.1") in Hbump.
    injection Hbump as <-.
    split; [apply updated_catalog_version|].
    unfold updated_catalog.
    destruct (keys_after_set
                (dict_set (dict_set d "rules"
                             (PList (rules ++ filter (appends (List.rev (track_finds items)))
                                                     patterns)))
                          "version" (PStr "1.1"))
                "description"
                (PStr (description_of
                         (Z.of_nat (length (filter (appends (List.rev (track_finds items)))
                                                   patterns))))))
      as (extra & Hkeys & Hextra).
    eexists. exists extra. split; [reflexivity|]. split; [|exact Hextra].
    rewrite Hkeys, !keys_dict_set. unfold dict_has.
    rewrite dict_get_set_other by discriminate.
    rewrite Hrules, Hversion. now rewrite <- app_assoc.
Qed.

Lemma missing_version_defaults_witness :
  (dict_get Samples.entries_no_version "version" = None /\
   merge_rules [Samples.hd_remastered] (PDict Samples.entries_no_version) (World None [])
     = (Ok (updated_catalog Samples.entries_no_version [] [Samples.hd_remastered] "1.1", 1),
        World None [Printed (MsgCount 0);
                    Printed (MsgAdded (PStr "Remove HD Remastered"))]) /\
   0 < 1) /\
  py_getitem (updated_catalog Samples.entries_no_version [] [Samples.hd_remastered] "1.1")
             "version" = Ok (PStr "1.1") /\
  exists d' extra,
    updated_catalog Samples.entries_no_version [] [Samples.hd_remastered] "1.1" = PDict d' /\
    keys d' = keys Samples.entries_no_version ++ "version" :: extra /\
    incl extra ["description"].
Proof.
  split; [repeat split|].
  apply (missing_version_defaults [Samples.hd_remastered] Samples.entries_no_version
           (World None []) _ 1
           (World None [Printed (MsgCount 0);
                        Printed (MsgAdded (PStr "Remove HD Remastered"))]));
    reflexivity.
Defined.

(** ** The version of a catalog that gets new rules *)

(** C2, as the code has it. On a catalog of well shaped rules, with well
    shaped candidates of which at least one is new, the run goes through
    the whole loop and then:
    - with a version that is a string of fewer than two dotted parts it
      raises IndexError, and with a version whose second part does not
      read as an integer it raises ValueError; in both cases the trace has
      the count and the names the loop reported and nothing else, nothing
      is written and the rules file is as it was;
    - with no version at all it takes "1.0" for it, and writes the merged
      catalog with version "1.1";
    - with a version (shorter than 4300 characters, so that the
      interpreter's limit on the digits of a conversion is not met) whose
      second part reads as an integer, it writes the merged catalog with
      that part plus one, whatever the first part is. *)
Theorem malformed_version_aborts (patterns : list pyval) (d : list (string * pyval))
    (rules : list pyval) (log : list event) :
  dict_get d "rules" = Some (PList rules) ->
  forallb rule_ok rules = true ->
  forallb candidate_ok patterns = true ->
  existsb (appends (List.rev (track_finds rules))) patterns = true ->
  let added := filter (appends (List.rev (track_finds rules))) patterns in
  let n := Z.of_nat (length added) in
  let counted := log ++ Printed (MsgCount (Z.of_nat (length rules)))
                     :: report_added added in
  let saved := fun version : string =>
    (Ok tt,
     World (Some (updated_catalog d rules added version))
           (counted ++ save_report (updated_catalog d rules added version) n
                                   (PStr version) (Z.of_nat (length rules) + n))) in
  (forall version,
     dict_get d "version" = Some (PStr version) ->
     (length (split_dot version) < 2)%nat ->
     analyze_and_update patterns (World (Some (PDict d)) log)
       = (Raise IndexError, World (Some (PDict d)) counted)) /\
  (forall version major minor rest,
     dict_get d "version" = Some (PStr version) ->
     split_dot version = major :: minor :: rest ->
     int_of_str minor = None ->
     analyze_and_update patterns (World (Some (PDict d)) log)
       = (Raise ValueError, World (Some (PDict d)) counted)) /\
  (dict_get d "version" = None ->
   analyze_and_update patterns (World (Some (PDict d)) log) = saved "1.1") /\
  (forall version major minor rest m,
     dict_get d "version" = Some (PStr version) ->
     (String.length version < 4300)%nat ->
     split_dot version = major :: minor :: rest ->
     int_of_str minor = Some m ->
     analyze_and_update patterns (World (Some (PDict d)) log)
       = saved (join_dot (major :: str_of_int (m + 1) :: rest))).
Proof.
  intros Hrules Hshape Hok Hnew added n counted saved.
  pose proof (well_shaped_run_eval patterns d rules log Hrules Hshape Hok) as Hrun.
  cbv zeta in Hrun. fold added in Hrun. fold n in Hrun. fold counted in Hrun.
  assert (Hsome : added <> []) by (now apply existsb_filter_cons).
  destruct added as [|c added'] eqn:Hadded; [congruence|].
  unfold version_or_default in Hrun.
  repeat split.
  - intros version Hversion Hparts. rewrite Hrun, Hversion.
    unfold bump_version. simpl.
    destruct (split_dot version) as [|major [|minor rest]]; simpl in Hparts;
      [reflexivity | reflexivity | lia].
  - intros version major minor rest Hversion Hsplit Hminor.
    rewrite Hrun, Hversion. unfold bump_version. simpl.
    now rewrite Hsplit, Hminor.
  - intros Hversion. rewrite Hrun, Hversion. reflexivity.
  - intros version major minor rest m Hversion _ Hsplit Hminor.
    rewrite Hrun, Hversion. unfold bump_version. simpl.
    now rewrite Hsplit, Hminor.
Qed.

Lemma malformed_version_aborts_witness :
  ((dict_get Samples.entries_single "rules" = Some (PList [Samples.remastered]) /\
    forallb rule_ok [Samples.remastered] = true /\
    forallb candidate_ok [Samples.hd_remastered] = true /\
    existsb (appends (List.rev (track_finds [Samples.remastered]))) [Samples.hd_remastered] = true /\
    dict_get Samples.entries_single "version" = Some (PStr "7") /\
    (length (split_dot "7") < 2)%nat) /\
   analyze_and_update [Samples.hd_remastered] (World (Some (PDict Samples.entries_single)) [])
     = (Raise IndexError, World (Some (PDict Samples.entries_single)) ([] ++ Printed (MsgCount (Z.of_nat (length [Samples.remastered]))) :: report_added (filter (appends (List.rev (track_finds [Samples.remastered]))) [Samples.hd_remastered])))) /\
  ((dict_get Samples.entries_lettered "rules" = Some (PList [Samples.remastered]) /\
    forallb rule_ok [Samples.remastered] = true /\
    forallb candidate_ok [Samples.hd_remastered] = true /\
    existsb (appends (List.rev (track_finds [Samples.remastered]))) [Samples.hd_remastered] = true /\
    dict_get Samples.entries_lettered "version" = Some (PStr "1.x") /\
    split_dot "1.x" = ["1"; "x"] /\
    int_of_str "x" = None) /\
   analyze_and_update [Samples.hd_remastered] (World (Some (PDict Samples.entries_lettered)) [])
     = (Raise ValueError, World (Some (PDict Samples.entries_lettered)) ([] ++ Printed (MsgCount (Z.of_nat (length [Samples.remastered]))) :: report_added (filter (appends (List.rev (track_finds [Samples.remastered]))) [Samples.hd_remastered])))) /\
  ((dict_get Samples.entries_no_version "rules" = Some (PList (@nil pyval)) /\
    forallb rule_ok (@nil pyval) = true /\
    forallb candidate_ok [Samples.hd_remastered] = true /\
    existsb (appends (List.rev (track_finds (@nil pyval)))) [Samples.hd_remastered] = true /\
    dict_get Samples.entries_no_version "version" = None) /\
   analyze_and_update [Samples.hd_remastered] (World (Some (PDict Samples.entries_no_version)) [])
     = (Ok tt,
      World (Some (updated_catalog Samples.entries_no_version (@nil pyval) (filter (appends (List.rev (track_finds (@nil pyval)))) [Samples.hd_remastered]) "1.1"))
            (([] ++ Printed (MsgCount (Z.of_nat (length (@nil pyval)))) :: report_added (filter (appends (List.rev (track_finds (@nil pyval)))) [Samples.hd_remastered]))
             ++ save_report (updated_catalog Samples.entries_no_version (@nil pyval) (filter (appends (List.rev (track_finds (@nil pyval)))) [Samples.hd_remastered]) "1.1") (Z.of_nat (length (filter (appends (List.rev (track_finds (@nil pyval)))) [Samples.hd_remastered]))) (PStr "1.1")
                  (Z.of_nat (length (@nil pyval)) + (Z.of_nat (length (filter (appends (List.rev (track_finds (@nil pyval)))) [Samples.hd_remastered]))))))) /\
  ((dict_get Samples.entries_named_major "rules" = Some (PList (@nil pyval)) /\
    forallb rule_ok (@nil pyval) = true /\
    forallb candidate_ok [Samples.hd_remastered] = true /\
    existsb (appends (List.rev (track_finds (@nil pyval)))) [Samples.hd_remastered] = true /\
    dict_get Samples.entries_named_major "version" = Some (PStr "x.5") /\
    (String.length "x.5" < 4300)%nat /\
    split_dot "x.5" = ["x"; "5"] /\
    int_of_str "5" = Some 5) /\
   analyze_and_update [Samples.hd_remastered] (World (Some (PDict Samples.entries_named_major)) [])
     = (Ok tt,
      World (Some (updated_catalog Samples.entries_named_major (@nil pyval) (filter (appends (List.rev (track_finds (@nil pyval)))) [Samples.hd_remastered]) (join_dot ("x" :: str_of_int (5 + 1) :: []))))
            (([] ++ Printed (MsgCount (Z.of_nat (length (@nil pyval)))) :: report_added (filter (appends (List.rev (track_finds (@nil pyval)))) [Samples.hd_remastered]))
             ++ save_report (updated_catalog Samples.entries_named_major (@nil pyval) (filter (appends (List.rev (track_finds (@nil pyval)))) [Samples.hd_remastered]) (join_dot ("x" :: str_of_int (5 + 1) :: []))) (Z.of_nat (length (filter (appends (List.rev (track_finds (@nil pyval)))) [Samples.hd_remastered]))) (PStr (join_dot ("x" :: str_of_int (5 + 1) :: [])))
                  (Z.of_nat (length (@nil pyval)) + (Z.of_nat (length (filter (appends (List.rev (track_finds (@nil pyval)))) [Samples.hd_remastered]))))))).
Proof.
  split; [|split; [|split]].
  - split; [repeat split; simpl; lia|].
    apply (proj1 (malformed_version_aborts [Samples.hd_remastered] Samples.entries_single [Samples.remastered] []
                    eq_refl eq_refl eq_refl eq_refl) "7");
      [reflexivity | simpl; lia].
  - split; [repeat split|].
    apply (proj1 (proj2 (malformed_version_aborts [Samples.hd_remastered] Samples.entries_lettered [Samples.remastered] []
                           eq_refl eq_refl eq_refl eq_refl)) "1.x" "1" "x" []);
      reflexivity.
  - split; [repeat split|].
    apply (proj1 (proj2 (proj2 (malformed_version_aborts [Samples.hd_remastered] Samples.entries_no_version [] []
                                  eq_refl eq_refl eq_refl eq_refl))));
      reflexivity.
  - split; [repeat split; simpl; lia|].
    apply (proj2 (proj2 (proj2 (malformed_version_aborts [Samples.hd_remastered] Samples.entries_named_major [] []
                                  eq_refl eq_refl eq_refl eq_refl)))
             "x.5" "x" "5" [] 5);
      [reflexivity | simpl; lia | reflexivity | reflexivity].
Defined.
